(** * DINO pretraining orchestrator: augmentation pipeline and training driver

  A shallow embedding of [dino/data/augmentations.py] and of the [main]
  function of [dino/patch.py], with the properties of the orchestration
  logic that the design document states about them.

  Conventions.  Python floats are idealised as rationals ([Q]); Python
  integers are [Z].  Library code (torchvision transforms, torch
  serialisation, the training and tuning routines) is kept abstract: a
  library transform is recorded in the trace of the image it was applied
  to, a library routine is an event of the process log or a parameter of
  the section that uses it. *)

From Stdlib Require Import ZArith QArith List Lia Ascii.
From stdpp Require Import base option list strings gmap pretty.

Set Warnings "-register-all".
Local Open Scope Z_scope.

(* ===================================================================== *)
(** * Part I: [dino/data/augmentations.py]                                *)
(* ===================================================================== *)

Module Augmentations.

(** ** Python's [random] module

    [random.random()] returns a 53-bit integer divided by [2^53], hence a
    value of the half-open interval from 0 to 1.  The generator is a stream
    of raw words and a position in it. *)

Record PyRandom := mkPyRandom { py_src : nat -> N; py_pos : nat }.

Definition two53 : positive := 9007199254740992%positive.

Definition unit_float (raw : N) : Q :=
  Qmake (Z.of_N raw mod Z.pos two53) two53.

Definition advance (r : PyRandom) : PyRandom :=
  {| py_src := py_src r; py_pos := S (py_pos r) |}.

Definition random_random (r : PyRandom) : Q * PyRandom :=
  (unit_float (py_src r (py_pos r)), advance r).

Definition random_uniform (a b : Q) (r : PyRandom) : Q * PyRandom :=
  let '(u, r') := random_random r in ((a + (b - a) * u)%Q, r').

(** The [k]-th value that [random.random()] is going to return. *)
Definition draw (r : PyRandom) (k : nat) : Q :=
  unit_float (py_src r (py_pos r + k)%nat).

(** ** Transforms *)

Inductive Interpolation := BILINEAR | BICUBIC.

Inductive Transform :=
| RandomResizedCrop (size : Z) (scale : Q * Q) (interpolation : Interpolation)
| RandomHorizontalFlip (p : Q)
| RandomApply (ts : list Transform) (p : Q)
| ColorJitter (brightness contrast saturation hue : Q)
| RandomGrayscale (p : Q)
| ToTensor
| Normalize (mean std : Q * Q * Q)
| GaussianBlur (prob radius_min radius_max : Q)
| Solarization (p : Q)
| Compose (ts : list Transform).

(** What happened to an image: a library transform was run on it (its own
    randomness stays inside the library), or one of the two filters of this
    file was applied. *)
Inductive Op :=
| OpLib (t : Transform)
| OpGaussianBlur (radius : Q)
| OpSolarize.

Record Image := mkImage { img_w : Z; img_h : Z; img_ops : list Op }.

Definition record_op (o : Op) (img : Image) : Image :=
  {| img_w := img_w img; img_h := img_h img; img_ops := img_ops img ++ [o] |}.

(** [img.filter(ImageFilter.GaussianBlur(radius))] and
    [ImageOps.solarize(img)] keep the size of the image. *)
Definition filter_GaussianBlur (radius : Q) (img : Image) : Image :=
  record_op (OpGaussianBlur radius) img.

Definition ImageOps_solarize (img : Image) : Image := record_op OpSolarize img.

(** A library transform: crops produce a square of the requested size, all
    others keep the size. *)
Definition lib_call (t : Transform) (img : Image) : Image :=
  match t with
  | RandomResizedCrop size _ _ =>
      {| img_w := size; img_h := size; img_ops := img_ops img ++ [OpLib t] |}
  | _ => record_op (OpLib t) img
  end.

Definition square (s : Z) (c : Image) : Prop := img_w c = s /\ img_h c = s.

Definition Qlt_bool (a b : Q) : bool := negb (Qle_bool b a).

(** [GaussianBlur.__call__] *)
Definition GaussianBlur_call (prob radius_min radius_max : Q)
    (img : Image) (r : PyRandom) : Image * PyRandom :=
  let '(u, r1) := random_random r in
  let do_it := Qle_bool u prob in
  if negb do_it then (img, r1)
  else
    let '(radius, r2) := random_uniform radius_min radius_max r1 in
    (filter_GaussianBlur radius img, r2).

(** [Solarization.__call__] *)
Definition Solarization_call (p : Q) (img : Image) (r : PyRandom)
    : Image * PyRandom :=
  let '(u, r1) := random_random r in
  if Qlt_bool u p then (ImageOps_solarize img, r1) else (img, r1).

(** Calling a transform.  [Compose] runs its stages in order. *)
Fixpoint call (t : Transform) (img : Image) (r : PyRandom) : Image * PyRandom :=
  match t with
  | Compose ts =>
      (fix go (ts : list Transform) (img : Image) (r : PyRandom) :=
         match ts with
         | [] => (img, r)
         | t' :: rest => let '(img', r') := call t' img r in go rest img' r'
         end) ts img r
  | GaussianBlur prob radius_min radius_max =>
      GaussianBlur_call prob radius_min radius_max img r
  | Solarization p => Solarization_call p img r
  | _ => (lib_call t img, r)
  end.

(** The stages of a composed transform. *)
Definition stages (t : Transform) : list Transform :=
  match t with Compose ts => ts | _ => [t] end.

(** [radius_min + (radius_max - radius_min) * u], the radius that
    [random.uniform] picks from the draw [u]. *)
Definition blur_radius (radius_min radius_max u : Q) : Q :=
  (radius_min + (radius_max - radius_min) * u)%Q.

(** ** [PatchDataAugmentationDINO] *)

Definition flip_and_color_jitter : Transform :=
  Compose
    [ RandomHorizontalFlip (1 # 2);
      RandomApply [ColorJitter (4 # 10) (4 # 10) (2 # 10) (1 # 10)] (8 # 10);
      RandomGrayscale (2 # 10) ].

Definition normalize : Transform :=
  Compose
    [ ToTensor;
      Normalize (485 # 1000, 456 # 1000, 406 # 1000)
                (229 # 1000, 224 # 1000, 225 # 1000) ].

Definition global_crop_size : Z := 224.
Definition local_crop_size : Z := 96.

(** Defaults of [GaussianBlur.__init__]. *)
Definition GaussianBlur_init (p : Q) : Transform := GaussianBlur p (1 # 10) 2.

Record PatchDataAugmentationDINO := mkPatchAug {
  global_transfo1 : Transform;
  global_transfo2 : Transform;
  local_crops_number : Z;
  local_transfo : Transform
}.

Definition PatchDataAugmentationDINO_init
    (global_crops_scale local_crops_scale : Q * Q) (local_crops_number : Z)
    : PatchDataAugmentationDINO :=
  {| global_transfo1 :=
       Compose [ RandomResizedCrop global_crop_size global_crops_scale BICUBIC;
                 flip_and_color_jitter;
                 GaussianBlur_init 1;
                 normalize ];
     global_transfo2 :=
       Compose [ RandomResizedCrop global_crop_size global_crops_scale BICUBIC;
                 flip_and_color_jitter;
                 GaussianBlur_init (1 # 10);
                 Solarization (2 # 10);
                 normalize ];
     local_crops_number := local_crops_number;
     local_transfo :=
       Compose [ RandomResizedCrop local_crop_size local_crops_scale BICUBIC;
                 flip_and_color_jitter;
                 GaussianBlur_init (1 # 2);
                 normalize ] |}.

(** [for _ in range(n): crops.append(t(x))] *)
Fixpoint append_crops (n : nat) (t : Transform) (x : Image)
    (crops : list Image) (r : PyRandom) : list Image * PyRandom :=
  match n with
  | O => (crops, r)
  | S n' => let '(c, r') := call t x r in append_crops n' t x (crops ++ [c]) r'
  end.

(** [PatchDataAugmentationDINO.__call__]; [range(k)] is empty for [k <= 0]. *)
Definition PatchDataAugmentationDINO_call (self : PatchDataAugmentationDINO)
    (x : Image) (r : PyRandom) : list Image * PyRandom :=
  let crops := [] in
  let '(c1, r1) := call (global_transfo1 self) x r in
  let crops := crops ++ [c1] in
  let '(c2, r2) := call (global_transfo2 self) x r1 in
  let crops := crops ++ [c2] in
  append_crops (Z.to_nat (local_crops_number self)) (local_transfo self) x crops r2.

End Augmentations.


(** ** [RegionDataAugmentationDINO]

    The variant for regions works on a tensor of patch features, with
    library operations only.  A tensor is modelled by its shape and the
    operations it went through; an operation of the library either gives a
    tensor or raises. *)

Module Region.

Inductive Error :=
| ZeroDivisionError
| RuntimeError
| IndexError
| ValueError.

Inductive TOp :=
| TUnfold (dimension size step : Z)
| TTranspose (dim0 dim1 : Z)
| TRandomCrop (size : Z)
| TRandomHorizontalFlip (p : Q).

Record Tensor := mkTensor { shape : list Z; history : list TOp }.

(** [int(x)] of a float: truncation towards zero. *)
Definition py_int (x : Q) : Z := Z.quot (Qnum x) (Z.pos (Qden x)).

(** [a // b] on integers. *)
Definition floordiv (a b : Z) : Error + Z :=
  if b =? 0 then inl ZeroDivisionError else inr (a / b).

(** [x.unfold(0, size, step)]: the windows of [size] rows, [step] apart; the
    window becomes the last dimension. *)
Definition unfold0 (size step : Z) (x : Tensor) : Error + Tensor :=
  match shape x with
  | [] => inl IndexError
  | m :: rest =>
      if (step <=? 0) || (size <? 0) || (m <? size) then inl RuntimeError
      else inr {| shape := ((m - size) / step + 1) :: rest ++ [size];
                  history := history x ++ [TUnfold 0 size step] |}
  end.

(** [x.transpose(0, 1)] *)
Definition transpose01 (x : Tensor) : Error + Tensor :=
  match shape x with
  | d0 :: d1 :: rest =>
      inr {| shape := d1 :: d0 :: rest;
             history := history x ++ [TTranspose 0 1] |}
  | _ => inl IndexError
  end.

(** [x.unfold(0, n, n).transpose(0, 1)]: the tokens laid out as a grid. *)
Definition to_grid (n : Z) (x : Tensor) : Error + Tensor :=
  match unfold0 n n x with
  | inl e => inl e
  | inr x1 => transpose01 x1
  end.

Inductive Transform :=
| RandomCrop (size : Z)
| RandomHorizontalFlip (p : Q)
| Compose (ts : list Transform).

(** The two last dimensions of a shape, and what is before them. *)
Fixpoint split_hw (s : list Z) : option (list Z * Z * Z) :=
  match s with
  | [] | [_] => None
  | [h; w] => Some ([], h, w)
  | d :: rest =>
      match split_hw rest with
      | Some (lead, h, w) => Some (d :: lead, h, w)
      | None => None
      end
  end.

(** [transforms.RandomCrop(size)] without padding: the crop has to fit. *)
Definition RandomCrop_call (size : Z) (x : Tensor) : Error + Tensor :=
  match split_hw (shape x) with
  | None => inl IndexError
  | Some (lead, h, w) =>
      if (h <? size) || (w <? size) then inl ValueError
      else inr {| shape := lead ++ [size; size];
                  history := history x ++ [TRandomCrop size] |}
  end.

Definition RandomHorizontalFlip_call (p : Q) (x : Tensor) : Error + Tensor :=
  inr {| shape := shape x; history := history x ++ [TRandomHorizontalFlip p] |}.

Fixpoint call (t : Transform) (x : Tensor) : Error + Tensor :=
  match t with
  | RandomCrop size => RandomCrop_call size x
  | RandomHorizontalFlip p => RandomHorizontalFlip_call p x
  | Compose ts =>
      (fix go (ts : list Transform) (x : Tensor) : Error + Tensor :=
         match ts with
         | [] => inr x
         | t' :: rest =>
             match call t' x with
             | inr x' => go rest x'
             | inl e => inl e
             end
         end) ts x
  end.

Record RegionDataAugmentationDINO := mkRegionAug {
  npatch : Z;
  global_transfo1 : Transform;
  global_transfo2 : Transform;
  local_crops_number : Z;
  local_transfo : Transform
}.

(** [RegionDataAugmentationDINO.__init__]; the scales are single numbers
    here. *)
Definition RegionDataAugmentationDINO_init
    (global_crops_scale : Q) (local_crops_number : Z) (local_crops_scale : Q)
    (region_size patch_size : Z) : Error + RegionDataAugmentationDINO :=
  match floordiv region_size patch_size with
  | inl e => inl e
  | inr npatch =>
      let global_crop_size := py_int (global_crops_scale * inject_Z npatch) in
      let local_crop_size := py_int (local_crops_scale * inject_Z npatch) in
      inr {| npatch := npatch;
             global_transfo1 :=
               Compose [RandomCrop global_crop_size; RandomHorizontalFlip (1 # 2)];
             global_transfo2 :=
               Compose [RandomCrop global_crop_size; RandomHorizontalFlip (1 # 2)];
             local_crops_number := local_crops_number;
             local_transfo :=
               Compose [RandomCrop local_crop_size; RandomHorizontalFlip (1 # 2)] |}
  end.

(** The defaults of [__init__]. *)
Definition default_region_size : Z := 4096.
Definition default_patch_size : Z := 256.

(** [for _ in range(n): crops.append(t(x))] *)
Fixpoint append_crops (n : nat) (t : Transform) (x : Tensor)
    (crops : list Tensor) : Error + list Tensor :=
  match n with
  | O => inr crops
  | S n' =>
      match call t x with
      | inr c => append_crops n' t x (crops ++ [c])
      | inl e => inl e
      end
  end.

(** [RegionDataAugmentationDINO.__call__] *)
Definition RegionDataAugmentationDINO_call (self : RegionDataAugmentationDINO)
    (x : Tensor) : Error + list Tensor :=
  let crops := [] in
  match to_grid (npatch self) x with
  | inl e => inl e
  | inr x =>
      match call (global_transfo1 self) x with
      | inl e => inl e
      | inr c1 =>
          let crops := crops ++ [c1] in
          match call (global_transfo2 self) x with
          | inl e => inl e
          | inr c2 =>
              let crops := crops ++ [c2] in
              append_crops (Z.to_nat (local_crops_number self))
                (local_transfo self) x crops
          end
      end
  end.

End Region.

(* ===================================================================== *)
(** * Part II: [dino/patch.py]                                            *)
(* ===================================================================== *)

Module Patch.

(** ** Configuration

    The groups of the configuration object that [main] reads.  An option
    that may be [None] or a number and is only tested for truth
    ([save_every], [tune_every]) is a [Z]: [None] and [0] are both false. *)

Record Cfg := mkCfg {
  train_output_dir : string;
  train_batch_size_per_gpu : Z;
  train_resume : bool;
  train_resume_from_checkpoint : string;
  train_save_every : Z;
  crops_global_crops_scale : Q * Q;
  crops_local_crops_scale : Q * Q;
  crops_local_crops_number : Z;
  optim_epochs : Z;
  optim_warmup_epochs : Z;
  optim_lr : Q;
  lr_scheduler_min_lr : Q;
  lr_scheduler_weight_decay : Q;
  lr_scheduler_weight_decay_end : Q;
  teacher_momentum_teacher : Q;
  speed_use_fp16 : bool;
  tune_tune_every : Z;
  tune_enable : bool;
  tune_knn_save_features : bool;
  wandb_enable : bool
}.

Definition set_train_output_dir (cfg : Cfg) (d : string) : Cfg :=
  {| train_output_dir := d;
     train_batch_size_per_gpu := train_batch_size_per_gpu cfg;
     train_resume := train_resume cfg;
     train_resume_from_checkpoint := train_resume_from_checkpoint cfg;
     train_save_every := train_save_every cfg;
     crops_global_crops_scale := crops_global_crops_scale cfg;
     crops_local_crops_scale := crops_local_crops_scale cfg;
     crops_local_crops_number := crops_local_crops_number cfg;
     optim_epochs := optim_epochs cfg;
     optim_warmup_epochs := optim_warmup_epochs cfg;
     optim_lr := optim_lr cfg;
     lr_scheduler_min_lr := lr_scheduler_min_lr cfg;
     lr_scheduler_weight_decay := lr_scheduler_weight_decay cfg;
     lr_scheduler_weight_decay_end := lr_scheduler_weight_decay_end cfg;
     teacher_momentum_teacher := teacher_momentum_teacher cfg;
     speed_use_fp16 := speed_use_fp16 cfg;
     tune_tune_every := tune_tune_every cfg;
     tune_enable := tune_enable cfg;
     tune_knn_save_features := tune_knn_save_features cfg;
     wandb_enable := wandb_enable cfg |}.

(** Truth value of a number. *)
Definition truthy (z : Z) : bool := negb (z =? 0).

(** ** Paths

    A path is the list of its components.  [Path(a, b, ...)] drops empty
    components, and a component that starts with a slash discards what came
    before it. *)

Abbreviation Path := (list string).

Definition is_absolute (s : string) : bool :=
  match s with
  | String c _ => bool_decide (c = "/"%char)
  | EmptyString => false
  end.

Definition join1 (p : Path) (s : string) : Path :=
  if bool_decide (s = "") then p
  else if is_absolute s then [s]
  else p ++ [s].

Definition Path_of (segments : list string) : Path := fold_left join1 segments [].

Definition path_join (p : Path) (s : string) : Path := join1 p s.

(** [str(path)] *)
Definition path_str (p : Path) : string := String.concat "/" p.

(** [f"{n:03}"]: at least three characters, padded with zeros after the
    sign. *)
Fixpoint zeros (n : nat) : string :=
  match n with O => "" | S n' => String "0" (zeros n') end.

Definition zfill (width : nat) (digits : string) : string :=
  zeros (width - String.length digits) +:+ digits.

Definition format_03 (z : Z) : string :=
  if z <? 0 then "-" +:+ zfill 2 (pretty (Z.to_N (- z)))
  else zfill 3 (pretty (Z.to_N z)).

(** ** Training state, snapshots and the file system *)

(** A [state_dict]: parameter or buffer name to (flattened) values. *)
Abbreviation StateDict := (gmap string (list Q)).

(** Statistics of one epoch, [train_stats.items()]. *)
Abbreviation TrainStats := (list (string * Q)).

(** Result of a tuning run: per network, per metric. *)
Abbreviation TuneResults := (list (string * list (string * Q))).

(** The objects that [main] builds and the training loop updates. *)
Record Model := mkModel {
  student : StateDict;
  teacher : StateDict;
  optimizer : StateDict;
  dino_loss : StateDict;
  fp16_scaler : option StateDict
}.

(** The [snapshot] mapping.  The key ["fp16_scaler"] is present only when
    mixed precision is on. *)
Record Snapshot := mkSnapshot {
  snap_epoch : Z;
  snap_student : StateDict;
  snap_teacher : StateDict;
  snap_optimizer : StateDict;
  snap_dino_loss : StateDict;
  snap_fp16_scaler : option StateDict
}.

(** One line of [log.txt]: the statistics of the epoch, every key prefixed
    with [train_], and the epoch. *)
Record LogStats := mkLogStats { log_train : TrainStats; log_epoch : Z }.

Inductive Content :=
| Pickle (s : Snapshot)
| JsonLines (lines : list LogStats).

Inductive Node :=
| Dir
| File (c : Content).

Abbreviation FS := (gmap (list string) Node).

Definition path_exists (fs : FS) (p : Path) : bool :=
  match fs !! p with Some _ => true | None => false end.

Definition is_file (fs : FS) (p : Path) : bool :=
  match fs !! p with Some (File _) => true | _ => false end.

Definition is_dir (fs : FS) (p : Path) : bool :=
  match fs !! p with Some Dir => true | _ => false end.

(** [p] itself or something below it. *)
Definition within (p q : Path) : Prop := p `prefix_of` q.

(** Strictly below [p]. *)
Definition below (p q : Path) : Prop := p `prefix_of` q /\ p <> q.

(** What [shutil.rmtree(p)] leaves of the file system. *)
Definition remove_tree (p : Path) (fs : FS) : FS :=
  filter (fun e => ~ within p e.1) fs.

(** The proper ancestors of [p], outermost first.  The directory that
    relative paths start from is not an entry of the map. *)
Definition parents (p : Path) : list Path :=
  map (fun n => take n p) (seq 1 (length p - 1)).

(** Every entry lies in directories. *)
Definition well_formed (fs : FS) : bool :=
  forallb (fun e => forallb (is_dir fs) (parents e.1)) (map_to_list fs).

(** ** Processes *)

Record Proc := mkProc {
  device_count : Z;       (* torch.cuda.device_count() *)
  rank : Z;               (* rank in the process group *)
  local_rank : Z;         (* LOCAL_RANK *)
  world_size : Z;         (* size of the process group *)
  now_strftime : string;  (* datetime.now().strftime("%Y-%m-%d_%H_%M") *)
  wandb_run_id : string   (* id of the run that initialize_wandb returns *)
}.

Definition distributed (p : Proc) : bool := 1 <? device_count p.

(** Modelled from the spec: [dino.distributed.get_rank], [is_main_process]
    and [get_world_size] are not among the sources.  The design document
    makes rank 0 the coordinating process; without a process group the only
    process has rank 0 and the world has size 1. *)
Definition get_rank (p : Proc) : Z := if distributed p then rank p else 0.
Definition is_main_process (p : Proc) : bool := get_rank p =? 0.
Definition get_world_size (p : Proc) : Z := if distributed p then world_size p else 1.

(** ** Effects

    The calls that a process makes to libraries and to the rest of the
    package, in the order in which it makes them. *)

Inductive Event :=
| EvInitProcessGroup
| EvGenerateRunId (run_id : string)
| EvInitializeWandb (run_id : string)
| EvBroadcastObjectList (src : Z)
| EvFixRandomSeeds
| EvRmtree (p : Path)
| EvMkdir (p : Path)
| EvWriteConfig (dir : string)
| EvPrepareTuningData
| EvMakeDataset
| EvDataLoader
| EvBuildNetworks
| EvDINOLoss
| EvOptimizer
| EvGradScaler
| EvCosineScheduler (base_value final_value : Q) (epochs niter warmup_epochs : Z)
| EvTorchLoad (p : Path)
| EvResumeFromCheckpoint (p : Path)
| EvSetEpoch (epoch : Z)
| EvTrainOneEpoch (epoch : Z)
| EvTuneOneEpoch (epoch : Z)
| EvEarlyStopping (epoch : Z)
| EvStoppingEarly (epoch : Z)
| EvTorchSave (p : Path)
| EvLogLine (epoch : Z)
| EvWandbLog (epoch : Z)
| EvBarrier (epoch : Z)
| EvDestroyProcessGroup.

Inductive Exn :=
| AssertionError (epochs warmup_epochs : Z)
| FileExistsError (p : Path)
| NotADirectoryError (p : Path)
| FileNotFoundError (p : Path)
| UnpicklingError (p : Path)
| KeyError (key : string)
| CheckpointError (p : Path).

(** What a process has done so far: the file system and the trace of its
    calls, oldest first. *)
Record World := mkWorld { fs : FS; trace : list Event }.

Inductive Outcome (A : Type) :=
| Done (a : A) (w : World)
| Raised (e : Exn) (w : World).
Arguments Done {A} a w.
Arguments Raised {A} e w.

Definition M (A : Type) : Type := World -> Outcome A.

#[global] Instance M_ret : MRet M := fun A a w => Done a w.

#[global] Instance M_bind : MBind M := fun A B f c w =>
  match c w with
  | Done a w' => f a w'
  | Raised e w' => Raised e w'
  end.

Definition emit (e : Event) : M unit :=
  fun w => Done tt {| fs := fs w; trace := trace w ++ [e] |}.

Definition raise {A} (e : Exn) : M A := fun w => Raised e w.

Definition get_fs : M FS := fun w => Done (fs w) w.

Definition put_fs (fs' : FS) : M unit :=
  fun w => Done tt {| fs := fs'; trace := trace w |}.

(** The epochs that were trained, in the order of the trace. *)
Definition trained_epochs (tr : list Event) : list Z :=
  omap (fun e => match e with EvTrainOneEpoch n => Some n | _ => None end) tr.

(** The state in which a computation ends, normally or not. *)
Definition final {A} (o : Outcome A) : World :=
  match o with Done _ w | Raised _ w => w end.

(** The exception that ended a computation, if one did. *)
Definition raised {A} (o : Outcome A) : option Exn :=
  match o with Done _ _ => None | Raised e _ => Some e end.

(** The run identifiers that a process made itself, in the order of the
    trace: the time stamp, then the identifier of the tracked run. *)
Definition generated_run_ids (tr : list Event) : list string :=
  omap (fun e => match e with
                 | EvGenerateRunId s | EvInitializeWandb s => Some s
                 | _ => None
                 end) tr.

(** ** File operations *)

(** [shutil.rmtree(p)] *)
Definition rmtree (p : Path) : M unit :=
  fs0 ← get_fs;
  match fs0 !! p with
  | Some Dir => emit (EvRmtree p);; put_fs (remove_tree p fs0)
  | Some (File _) => raise (NotADirectoryError p)
  | None => raise (FileNotFoundError p)
  end.

(** Creating the missing directories along a path. *)
Fixpoint make_dirs (ps : list Path) : M unit :=
  match ps with
  | [] => mret tt
  | q :: rest =>
      fs0 ← get_fs;
      match fs0 !! q with
      | Some Dir => make_dirs rest
      | Some (File _) => raise (NotADirectoryError q)
      | None => put_fs (<[q := Dir]> fs0);; make_dirs rest
      end
  end.

(** [p.mkdir(parents=True, exist_ok=exist_ok)] *)
Definition mkdir_parents (p : Path) (exist_ok : bool) : M unit :=
  fs0 ← get_fs;
  match fs0 !! p with
  | Some Dir => if exist_ok then mret tt else raise (FileExistsError p)
  | Some (File _) => raise (FileExistsError p)
  | None =>
      emit (EvMkdir p);;
      make_dirs (parents p);;
      fs1 ← get_fs;
      put_fs (<[p := Dir]> fs1)
  end.

(** [torch.save(snapshot, p)]; the write itself is taken to succeed. *)
Definition torch_save (s : Snapshot) (p : Path) : M unit :=
  emit (EvTorchSave p);;
  fs0 ← get_fs;
  put_fs (<[p := File (Pickle s)]> fs0).

(** [torch.load(p)] *)
Definition torch_load (p : Path) : M Snapshot :=
  emit (EvTorchLoad p);;
  fs0 ← get_fs;
  match fs0 !! p with
  | Some (File (Pickle s)) => mret s
  | Some _ => raise (UnpicklingError p)
  | None => raise (FileNotFoundError p)
  end.

(** [with open(p, "a") as f: f.write(line + "\n")]; the write itself is
    taken to succeed. *)
Definition appended (fs0 : FS) (p : Path) (line : LogStats) : FS :=
  match fs0 !! p with
  | Some (File (JsonLines ls)) => <[p := File (JsonLines (ls ++ [line]))]> fs0
  | _ => <[p := File (JsonLines [line])]> fs0
  end.

Definition append_line (p : Path) (line : LogStats) : M unit :=
  fs0 ← get_fs;
  put_fs (appended fs0 p line).

(** ** Collaborators

    The routines that [main] imports from the rest of the package, none of
    which is among the sources: the training and tuning of one epoch, the
    early-stopping controller (an object with a call and a flag) and the
    resumption from a named checkpoint. *)

Record Collaborators := mkCollaborators {
  build_student : Cfg -> StateDict;
  build_dino_loss : Cfg -> StateDict;
  build_optimizer : Cfg -> StateDict;
  GradScaler : StateDict;
  len_data_loader : Cfg -> Z;
  train_one_epoch : Model -> Z -> Model * TrainStats;
  tune_one_epoch : Z -> Model -> TuneResults;
  EarlyStoppingDINO : Type;
  EarlyStoppingDINO_init : Cfg -> Path -> EarlyStoppingDINO;
  EarlyStoppingDINO_call :
    EarlyStoppingDINO -> Z -> option TuneResults -> Snapshot -> FS -> EarlyStoppingDINO * FS;
  early_stop : EarlyStoppingDINO -> bool;
  resume_from_checkpoint : Path -> FS -> Model -> option (Z * Model)
}.

Section Main.

Variable X : Collaborators.

(** Lines 62-69: the process group. *)
Definition init_distributed (p : Proc) : M Z :=
  if distributed p then emit EvInitProcessGroup;; mret (local_rank p)
  else mret (-1).

(** Lines 71-82: the run identifier that a process makes for itself. *)
Definition local_run_id (cfg : Cfg) (p : Proc) : string :=
  if is_main_process p then
    if wandb_enable cfg then wandb_run_id p else now_strftime p
  else "".

Definition make_run_id (cfg : Cfg) (p : Proc) : M string :=
  if is_main_process p then
    emit (EvGenerateRunId (now_strftime p));;
    (if wandb_enable cfg then emit (EvInitializeWandb (wandb_run_id p)) else mret tt);;
    mret (local_run_id cfg p)
  else mret "".

(** Lines 84-89: [broadcast_object_list(obj, 0)] leaves in [obj] the object
    of rank 0, [from_rank0] for the other processes. *)
Definition broadcast_run_id (p : Proc) (run_id from_rank0 : string) : M string :=
  if distributed p then
    emit (EvBroadcastObjectList 0);;
    mret (if rank p =? 0 then run_id else from_rank0)
  else mret run_id.

Record Dirs := mkDirs {
  output_dir : Path;
  snapshot_dir : Path;
  features_dir : Path
}.

(** Lines 59-98. *)
Definition main_startup (cfg : Cfg) (p : Proc) (from_rank0 : string)
    : M (Cfg * Dirs) :=
  gpu_id ← init_distributed p;
  run_id ← make_run_id cfg p;
  run_id ← broadcast_run_id p run_id from_rank0;
  let output_dir := Path_of [train_output_dir cfg; run_id] in
  let cfg := set_train_output_dir cfg (path_str output_dir) in
  emit EvFixRandomSeeds;;
  let snapshot_dir := path_join output_dir "snapshots" in
  let features_dir := path_join output_dir "features" in
  mret (cfg, {| output_dir := output_dir;
                snapshot_dir := snapshot_dir;
                features_dir := features_dir |}).

(** Lines 99-108. *)
Definition prepare_dirs (cfg : Cfg) (p : Proc) (d : Dirs) : M unit :=
  if negb (train_resume cfg) && is_main_process p then
    fs0 ← get_fs;
    (if path_exists fs0 (output_dir d) then
       rmtree (output_dir d);;
       mkdir_parents (output_dir d) false
     else mkdir_parents (output_dir d) true);;
    mkdir_parents (snapshot_dir d) true;;
    if truthy (tune_tune_every cfg) && tune_knn_save_features cfg
    then mkdir_parents (features_dir d) true
    else mret tt
  else mret tt.

Definition when (b : bool) (c : M unit) : M unit := if b then c else mret tt.

(** Lines 110-259: configuration file, data, networks, loss, optimizer. *)
Definition main_build (cfg : Cfg) (p : Proc) : M Model :=
  when (is_main_process p) (emit (EvWriteConfig (train_output_dir cfg)));;
  when (is_main_process p && truthy (tune_tune_every cfg)) (emit EvPrepareTuningData);;
  emit EvMakeDataset;;
  emit EvDataLoader;;
  emit EvBuildNetworks;;
  let student := build_student X cfg in
  (* teacher and student start with the same weights *)
  let teacher := student in
  emit EvDINOLoss;;
  let dino_loss := build_dino_loss X cfg in
  emit EvOptimizer;;
  let optimizer := build_optimizer X cfg in
  fp16_scaler ← (if speed_use_fp16 cfg
                 then emit EvGradScaler;; mret (Some (GradScaler X))
                 else mret None);
  mret {| student := student; teacher := teacher; optimizer := optimizer;
          dino_loss := dino_loss; fp16_scaler := fp16_scaler |}.

(** Line 264. *)
Definition base_lr (cfg : Cfg) (p : Proc) : Q :=
  (optim_lr cfg * inject_Z (train_batch_size_per_gpu cfg * get_world_size p) / 256)%Q.

(** Lines 261-281: the assertion and the three schedules. *)
Definition main_schedules (cfg : Cfg) (p : Proc) : M unit :=
  (if optim_warmup_epochs cfg <=? optim_epochs cfg then mret tt
   else raise (AssertionError (optim_epochs cfg) (optim_warmup_epochs cfg)));;
  let base_lr := base_lr cfg p in
  emit (EvCosineScheduler base_lr (lr_scheduler_min_lr cfg) (optim_epochs cfg)
          (len_data_loader X cfg) (optim_warmup_epochs cfg));;
  emit (EvCosineScheduler (lr_scheduler_weight_decay cfg)
          (lr_scheduler_weight_decay_end cfg) (optim_epochs cfg)
          (len_data_loader X cfg) 0);;
  emit (EvCosineScheduler (teacher_momentum_teacher cfg) 1 (optim_epochs cfg)
          (len_data_loader X cfg) 0).

(** Lines 295-301: the state dictionaries of a snapshot go back into the
    objects. *)
Definition load_snapshot (m : Model) (s : Snapshot) : M Model :=
  fp16 ← match fp16_scaler m with
         | Some _ =>
             match snap_fp16_scaler s with
             | Some sd => mret (Some sd)
             | None => raise (KeyError "fp16_scaler")
             end
         | None => mret None
         end;
  mret {| student := snap_student s; teacher := snap_teacher s;
          optimizer := snap_optimizer s; dino_loss := snap_dino_loss s;
          fp16_scaler := fp16 |}.

(** Lines 285-317: the number of epochs already run, and the state to go on
    from. *)
Definition main_restore (cfg : Cfg) (p : Proc) (d : Dirs) (m : Model)
    : M (Z * Model) :=
  let epochs_run := 0 in
  let snapshot_path := path_join (snapshot_dir d) "latest.pt" in
  if distributed p then
    fs0 ← get_fs;
    if path_exists fs0 snapshot_path then
      snapshot ← torch_load snapshot_path;
      let epochs_run := snap_epoch snapshot in
      m' ← load_snapshot m snapshot;
      mret (epochs_run, m')
    else mret (epochs_run, m)
  else if train_resume cfg then
    let ckpt_path := Path_of [train_resume_from_checkpoint cfg] in
    emit (EvResumeFromCheckpoint ckpt_path);;
    fs0 ← get_fs;
    match resume_from_checkpoint X ckpt_path fs0 m with
    | Some (epochs_run, m') => mret (epochs_run, m')
    | None => raise (CheckpointError ckpt_path)
    end
  else mret (epochs_run, m).

(** Lines 375-383. *)
Definition make_snapshot (epoch : Z) (m : Model) : Snapshot :=
  {| snap_epoch := epoch;
     snap_student := student m;
     snap_teacher := teacher m;
     snap_optimizer := optimizer m;
     snap_dino_loss := dino_loss m;
     snap_fp16_scaler := fp16_scaler m |}.

Record LoopState := mkLoopState {
  ls_model : Model;
  ls_early_stopping : EarlyStoppingDINO X;
  ls_stop : bool
}.

(** Lines 345-415: training, tuning and the early-stopping call of one
    epoch. *)
Definition epoch_train (cfg : Cfg) (p : Proc) (epoch : Z) (st : LoopState)
    : M (LoopState * TrainStats * Snapshot) :=
  when (distributed p) (emit (EvSetEpoch epoch));;
  emit (EvTrainOneEpoch epoch);;
  let '(model, train_stats) := train_one_epoch X (ls_model st) epoch in
  let snapshot := make_snapshot epoch model in
  tune_results ←
    (if truthy (tune_tune_every cfg) && (epoch mod tune_tune_every cfg =? 0)
        && is_main_process p
     then emit (EvTuneOneEpoch epoch);; mret (Some (tune_one_epoch X epoch model))
     else mret None);
  if is_main_process p then
    fs0 ← get_fs;
    let '(es, fs1) :=
      EarlyStoppingDINO_call X (ls_early_stopping st) epoch tune_results snapshot fs0 in
    emit (EvEarlyStopping epoch);;
    put_fs fs1;;
    let stop := if early_stop X es && tune_enable cfg then true else ls_stop st in
    mret ({| ls_model := model; ls_early_stopping := es; ls_stop := stop |},
          train_stats, snapshot)
  else
    mret ({| ls_model := model; ls_early_stopping := ls_early_stopping st;
             ls_stop := ls_stop st |}, train_stats, snapshot).

Definition epoch_save_path (d : Dirs) (epoch : Z) : Path :=
  path_join (snapshot_dir d) ("epoch_" +:+ format_03 epoch +:+ ".pt").

(** Lines 423-431: the periodic, epoch-numbered snapshot. *)
Definition save_snapshot (cfg : Cfg) (p : Proc) (d : Dirs) (epoch : Z)
    (snapshot : Snapshot) : M unit :=
  if is_main_process p then
    let save_path := epoch_save_path d epoch in
    fs0 ← get_fs;
    if truthy (train_save_every cfg)
       && (epoch mod train_save_every cfg =? 0)
       && negb (is_file fs0 save_path)
    then torch_save snapshot save_path
    else mret tt
  else mret tt.

(** Lines 433-439: the line of [log.txt]. *)
Definition write_log (p : Proc) (d : Dirs) (epoch : Z) (train_stats : TrainStats)
    : M unit :=
  let log_stats := {| log_train := train_stats; log_epoch := epoch |} in
  if is_main_process p then
    emit (EvLogLine epoch);;
    append_line (path_join (output_dir d) "log.txt") log_stats
  else mret tt.

(** Lines 423-455: what follows the test of [stop]. *)
Definition epoch_bookkeeping (cfg : Cfg) (p : Proc) (d : Dirs) (epoch : Z)
    (train_stats : TrainStats) (snapshot : Snapshot) : M unit :=
  save_snapshot cfg p d epoch snapshot;;
  write_log p d epoch train_stats;;
  when (is_main_process p && wandb_enable cfg) (emit (EvWandbLog epoch));;
  when (distributed p) (emit (EvBarrier epoch)).

(** One turn of the loop; the flag says whether the loop was left with
    [break]. *)
Definition epoch_body (cfg : Cfg) (p : Proc) (d : Dirs) (epoch : Z)
    (st : LoopState) : M (LoopState * bool) :=
  '(st', train_stats, snapshot) ← epoch_train cfg p epoch st;
  if ls_stop st' then
    emit (EvStoppingEarly epoch);;
    mret (st', true)
  else
    epoch_bookkeeping cfg p d epoch train_stats snapshot;;
    mret (st', false).

(** [for epoch in range(epochs_run, cfg.optim.epochs)] *)
Fixpoint epochs_loop (cfg : Cfg) (p : Proc) (d : Dirs) (epochs : list Z)
    (st : LoopState) : M LoopState :=
  match epochs with
  | [] => mret st
  | epoch :: rest =>
      '(st', broke) ← epoch_body cfg p d epoch st;
      if (broke : bool) then mret st' else epochs_loop cfg p d rest st'
  end.

Definition range (lo hi : Z) : list Z := seqZ lo (hi - lo).

(** Lines 319-462. *)
Definition main_train (cfg : Cfg) (p : Proc) (d : Dirs) (epochs_run : Z)
    (m : Model) : M LoopState :=
  let early_stopping := EarlyStoppingDINO_init X cfg (snapshot_dir d) in
  let stop := false in
  st ← epochs_loop cfg p d (range epochs_run (optim_epochs cfg))
         {| ls_model := m; ls_early_stopping := early_stopping; ls_stop := stop |};
  when (distributed p) (emit EvDestroyProcessGroup);;
  mret st.

(** Lines 59-108. *)
Definition main_prepare (cfg0 : Cfg) (p : Proc) (from_rank0 : string)
    : M (Cfg * Dirs) :=
  '(cfg, d) ← main_startup cfg0 p from_rank0;
  prepare_dirs cfg p d;;
  mret (cfg, d).

Definition main (cfg0 : Cfg) (p : Proc) (from_rank0 : string) : M LoopState :=
  '(cfg, d) ← main_prepare cfg0 p from_rank0;
  m ← main_build cfg p;
  main_schedules cfg p;;
  '(epochs_run, m) ← main_restore cfg p d m;
  main_train cfg p d epochs_run m.

(** ** Several processes

    The processes of a job, listed by rank, start from the same
    configuration; the broadcast hands to each the object of rank 0. *)
Definition rank0_object (cfg : Cfg) (procs : list Proc) : string :=
  match procs with
  | p0 :: _ => local_run_id cfg p0
  | [] => ""
  end.

Definition startup_all (cfg : Cfg) (procs : list Proc) (w : World)
    : list (Outcome (Cfg * Dirs)) :=
  map (fun p => main_startup cfg p (rank0_object cfg procs) w) procs.

End Main.

Arguments mkLoopState {X} _ _ _.
Arguments ls_model {X} _.
Arguments ls_early_stopping {X} _.
Arguments ls_stop {X} _.

(** ** The trace of the start *)

(** The run identifier that a process ends up with. *)
Definition final_run_id (cfg : Cfg) (p : Proc) (from_rank0 : string) : string :=
  if distributed p then
    if rank p =? 0 then local_run_id cfg p else from_rank0
  else local_run_id cfg p.

Definition dirs_of (out : Path) : Dirs :=
  {| output_dir := out;
     snapshot_dir := path_join out "snapshots";
     features_dir := path_join out "features" |}.

Definition startup_events (cfg : Cfg) (p : Proc) : list Event :=
  (if distributed p then [EvInitProcessGroup] else [])
  ++ (if is_main_process p then
        EvGenerateRunId (now_strftime p)
        :: (if wandb_enable cfg then [EvInitializeWandb (wandb_run_id p)] else [])
      else [])
  ++ (if distributed p then [EvBroadcastObjectList 0] else [])
  ++ [EvFixRandomSeeds].

Definition build_events (cfg : Cfg) (p : Proc) : list Event :=
  (if is_main_process p then [EvWriteConfig (train_output_dir cfg)] else [])
  ++ (if is_main_process p && truthy (tune_tune_every cfg)
      then [EvPrepareTuningData] else [])
  ++ [EvMakeDataset; EvDataLoader; EvBuildNetworks; EvDINOLoss; EvOptimizer]
  ++ (if speed_use_fp16 cfg then [EvGradScaler] else []).

(** ** The trace of one epoch *)

(** The events of the first half of an epoch, up to the early-stopping call. *)
Definition tune_due (cfg : Cfg) (p : Proc) (epoch : Z) : bool :=
  truthy (tune_tune_every cfg) && (epoch mod tune_tune_every cfg =? 0)
  && is_main_process p.

Definition train_events (cfg : Cfg) (p : Proc) (epoch : Z) : list Event :=
  (if distributed p then [EvSetEpoch epoch] else [])
  ++ [EvTrainOneEpoch epoch]
  ++ (if tune_due cfg p epoch then [EvTuneOneEpoch epoch] else [])
  ++ (if is_main_process p then [EvEarlyStopping epoch] else []).

Definition save_due (cfg : Cfg) (p : Proc) (d : Dirs) (epoch : Z) (fs0 : FS) : bool :=
  is_main_process p
  && (truthy (train_save_every cfg) && (epoch mod train_save_every cfg =? 0)
      && negb (is_file fs0 (epoch_save_path d epoch))).

Definition bookkeeping_events (cfg : Cfg) (p : Proc) (d : Dirs) (epoch : Z) (fs0 : FS) : list Event :=
  (if save_due cfg p d epoch fs0 then [EvTorchSave (epoch_save_path d epoch)] else [])
  ++ (if is_main_process p then [EvLogLine epoch] else [])
  ++ (if is_main_process p && wandb_enable cfg then [EvWandbLog epoch] else [])
  ++ (if distributed p then [EvBarrier epoch] else []).

Definition is_stopping_early (e : Event) : bool :=
  match e with EvStoppingEarly _ => true | _ => false end.

End Patch.

(* ===================================================================== *)
(** * Part III: sample runs                                               *)
(* ===================================================================== *)

Module Examples.
Import Patch.

(** Modelled from the spec: the early-stopping controller
    ([dino.components.EarlyStoppingDINO]) and the training and tuning
    routines ([dino.utils]) are not among the sources.  This stand-in keeps,
    at every call, the rolling snapshot [latest.pt] of its checkpoint
    directory (the unconditional rolling snapshot of the design document) and
    raises its flag from the epoch [stop_at] on; training leaves the state as
    it is. *)
Definition collaborators (stop_at : option Z) : Collaborators :=
  {| build_student := fun _ => ∅;
     build_dino_loss := fun _ => ∅;
     build_optimizer := fun _ => ∅;
     GradScaler := ∅;
     len_data_loader := fun _ => 10;
     train_one_epoch := fun m _ => (m, [("loss"%string, 1%Q)]);
     tune_one_epoch := fun _ _ => [];
     EarlyStoppingDINO := (Path * bool)%type;
     EarlyStoppingDINO_init := fun _ dir => (dir, false);
     EarlyStoppingDINO_call := fun es epoch _ snapshot fs0 =>
       ((es.1, es.2 || bool_decide (stop_at = Some epoch)),
        <[path_join es.1 "latest.pt" := File (Pickle snapshot)]> fs0);
     early_stop := snd;
     resume_from_checkpoint := fun _ _ _ => None |}.

Definition cfg0 : Cfg :=
  {| train_output_dir := "output";
     train_batch_size_per_gpu := 64;
     train_resume := false;
     train_resume_from_checkpoint := "";
     train_save_every := 1;
     crops_global_crops_scale := (4 # 10, 1%Q);
     crops_local_crops_scale := (5 # 100, 4 # 10);
     crops_local_crops_number := 8;
     optim_epochs := 5;
     optim_warmup_epochs := 2;
     optim_lr := 5 # 10000;
     lr_scheduler_min_lr := 1 # 1000000;
     lr_scheduler_weight_decay := 4 # 100;
     lr_scheduler_weight_decay_end := 4 # 10;
     teacher_momentum_teacher := 996 # 1000;
     speed_use_fp16 := false;
     tune_tune_every := 0;
     tune_enable := true;
     tune_knn_save_features := false;
     wandb_enable := false |}.

(** The same with more warm-up epochs than epochs. *)
Definition cfg_short : Cfg :=
  {| train_output_dir := "output";
     train_batch_size_per_gpu := 64;
     train_resume := false;
     train_resume_from_checkpoint := "";
     train_save_every := 1;
     crops_global_crops_scale := (4 # 10, 1%Q);
     crops_local_crops_scale := (5 # 100, 4 # 10);
     crops_local_crops_number := 8;
     optim_epochs := 5;
     optim_warmup_epochs := 10;
     optim_lr := 5 # 10000;
     lr_scheduler_min_lr := 1 # 1000000;
     lr_scheduler_weight_decay := 4 # 100;
     lr_scheduler_weight_decay_end := 4 # 10;
     teacher_momentum_teacher := 996 # 1000;
     speed_use_fp16 := false;
     tune_tune_every := 0;
     tune_enable := true;
     tune_knn_save_features := false;
     wandb_enable := false |}.

(** The same with early stopping switched off. *)
Definition cfg_no_tune : Cfg :=
  {| train_output_dir := "output";
     train_batch_size_per_gpu := 64;
     train_resume := false;
     train_resume_from_checkpoint := "";
     train_save_every := 1;
     crops_global_crops_scale := (4 # 10, 1%Q);
     crops_local_crops_scale := (5 # 100, 4 # 10);
     crops_local_crops_number := 8;
     optim_epochs := 5;
     optim_warmup_epochs := 2;
     optim_lr := 5 # 10000;
     lr_scheduler_min_lr := 1 # 1000000;
     lr_scheduler_weight_decay := 4 # 100;
     lr_scheduler_weight_decay_end := 4 # 10;
     teacher_momentum_teacher := 996 # 1000;
     speed_use_fp16 := false;
     tune_tune_every := 0;
     tune_enable := false;
     tune_knn_save_features := false;
     wandb_enable := false |}.

(** A restart of the job: [resume] is set, so the directories are kept. *)
Definition cfg_resume : Cfg :=
  {| train_output_dir := "output";
     train_batch_size_per_gpu := 64;
     train_resume := true;
     train_resume_from_checkpoint := "";
     train_save_every := 0;
     crops_global_crops_scale := (4 # 10, 1%Q);
     crops_local_crops_scale := (5 # 100, 4 # 10);
     crops_local_crops_number := 8;
     optim_epochs := 5;
     optim_warmup_epochs := 2;
     optim_lr := 5 # 10000;
     lr_scheduler_min_lr := 1 # 1000000;
     lr_scheduler_weight_decay := 4 # 100;
     lr_scheduler_weight_decay_end := 4 # 10;
     teacher_momentum_teacher := 996 # 1000;
     speed_use_fp16 := false;
     tune_tune_every := 0;
     tune_enable := false;
     tune_knn_save_features := false;
     wandb_enable := false |}.


(** A single process on one device, and the two processes of a job on two
    devices. *)
Definition single : Proc :=
  {| device_count := 1; rank := 0; local_rank := 0; world_size := 1;
     now_strftime := "2024-05-01_09_30"; wandb_run_id := "k3x9" |}.

Definition rank0 : Proc :=
  {| device_count := 2; rank := 0; local_rank := 0; world_size := 2;
     now_strftime := "2024-05-01_09_30"; wandb_run_id := "k3x9" |}.

Definition rank1 : Proc :=
  {| device_count := 2; rank := 1; local_rank := 1; world_size := 2;
     now_strftime := "2024-05-01_09_31"; wandb_run_id := "q7m2" |}.

Definition empty_world : World := {| fs := ∅; trace := [] |}.

Definition run_dir : Path := ["output"; "2024-05-01_09_30"].

Definition dirs0 : Dirs :=
  {| output_dir := run_dir;
     snapshot_dir := run_dir ++ ["snapshots"];
     features_dir := run_dir ++ ["features"] |}.

Definition model0 : Model :=
  {| student := ∅; teacher := ∅; optimizer := ∅; dino_loss := ∅;
     fp16_scaler := None |}.

(** A run directory left by an earlier run. *)
Definition old_run : FS :=
  {[ ["output"] := Dir;
     run_dir := Dir;
     run_dir ++ ["snapshots"] := Dir;
     run_dir ++ ["snapshots"; "epoch_000.pt"] := File (Pickle (make_snapshot 0 model0));
     run_dir ++ ["log.txt"] := File (JsonLines [{| log_train := []; log_epoch := 0 |}]);
     ["other"] := Dir;
     ["other"; "notes"] := File (JsonLines []) ]}.

(** The run directory of a job that was interrupted after its epoch 2: the
    rolling snapshot holds the mapping built at the end of that epoch. *)
Definition interrupted_run : FS :=
  {[ ["output"] := Dir;
     run_dir := Dir;
     run_dir ++ ["snapshots"] := Dir;
     run_dir ++ ["snapshots"; "latest.pt"] := File (Pickle (make_snapshot 2 model0)) ]}.

Definition old_world : World := {| fs := old_run; trace := [] |}.

Definition interrupted_world : World := {| fs := interrupted_run; trace := [] |}.

Definition sample_image : Augmentations.Image :=
  {| Augmentations.img_w := 256; Augmentations.img_h := 256;
     Augmentations.img_ops := [] |}.

Definition sample_random : Augmentations.PyRandom :=
  {| Augmentations.py_src := fun n => N.of_nat n; Augmentations.py_pos := 0 |}.

End Examples.

(** ** Observations on a run of the augmentations *)

Module Observations.

(** The generator [r'] is [r] moved on by between [lo] and [hi] draws. *)
Definition moved_on (lo hi : nat) (r r' : Augmentations.PyRandom) : Prop :=
  Augmentations.py_src r' = Augmentations.py_src r
  /\ (Augmentations.py_pos r + lo <= Augmentations.py_pos r')%nat
  /\ (Augmentations.py_pos r' <= Augmentations.py_pos r + hi)%nat.

End Observations.

(** ** Observations on a run of the driver *)

Module Observed.
Import Patch.

(** A computation that leaves the file system as it found it, however it
    ends. *)
Definition fs_kept {A} (c : M A) : Prop :=
  forall w, fs (final (c w)) = fs w.


(** The events of one epoch on a process that is not the coordinating one. *)
Definition follower_events (epoch : Z) : list Event :=
  [EvSetEpoch epoch; EvTrainOneEpoch epoch; EvBarrier epoch].

(** The epochs that the lines of a log file are about. *)
Definition log_epochs (fs0 : FS) (p : Path) : list Z :=
  match fs0 !! p with
  | Some (File (JsonLines ls)) => map log_epoch ls
  | _ => []
  end.

(** A path that a line can be appended to: nothing is there yet, or a file
    of lines is. *)
Definition appendable (fs0 : FS) (p : Path) : bool :=
  match fs0 !! p with
  | None | Some (File (JsonLines _)) => true
  | _ => false
  end.

(** The epochs that came to their end, among the trained ones: all of them,
    or all but the last when the loop was left with [break]. *)
Definition completed_epochs (stopped : bool) (trained : list Z) : list Z :=
  if stopped then removelast trained else trained.

(** The model after the epochs [es] were trained, one after the other. *)
Definition trained (X : Collaborators) (es : list Z) (m : Model) : Model :=
  fold_left (fun m e => (train_one_epoch X m e).1) es m.

End Observed.

(** ** Further sample inputs *)

Module ExamplesExtra.


(** The features of a region with fewer tokens than one row of the grid. *)
Definition short_features : Region.Tensor :=
  {| Region.shape := [10; 384]; Region.history := [] |}.


End ExamplesExtra.

(* ===================================================================== *)
(** * Part IV: properties of the augmentation pipeline                    *)
(* ===================================================================== *)

Module AugmentationsSpec.
Import Augmentations.

Lemma unit_float_lt_1 (raw : N) : (unit_float raw < 1)%Q.
Proof.
  unfold unit_float, Qlt; cbn.
  pose proof (Z.mod_pos_bound (Z.of_N raw) (Z.pos two53) eq_refl). lia.
Qed.


Lemma blur_certain (raw : N) : Qle_bool (unit_float raw) 1 = true.
Proof. apply Qle_bool_iff, Qlt_le_weak, unit_float_lt_1. Qed.

Lemma draw_0 r : fst (random_random r) = draw r 0.
Proof. unfold random_random, draw; cbn. by rewrite Nat.add_0_r. Qed.

Lemma draw_advance r k : draw (advance r) k = draw r (S k).
Proof. unfold draw, advance; cbn. by rewrite Nat.add_succ_r. Qed.

Lemma append_crops_spec (P : Image -> Prop) t x :
  (forall r, P (fst (call t x r))) ->
  forall n crops r,
    exists new, fst (append_crops n t x crops r) = crops ++ new
                /\ length new = n /\ Forall P new.
Proof.
  intros HP. induction n as [|n IH]; intros crops r; cbn.
  - exists []. by rewrite app_nil_r.
  - specialize (HP r). destruct (call t x r) as [c r'].
    destruct (IH (crops ++ [c]) r') as (new & -> & Hlen & Hall).
    exists (c :: new). rewrite <- app_assoc. cbn. auto.
Qed.


(** The three pipelines, run on an image [x] with generator [r]. *)

Lemma global_transfo1_ops gs ls K x r :
  img_ops (fst (call (global_transfo1 (PatchDataAugmentationDINO_init gs ls K)) x r)) =
    img_ops x ++ [OpLib (RandomResizedCrop global_crop_size gs BICUBIC)]
      ++ map OpLib (stages flip_and_color_jitter)
      ++ [OpGaussianBlur (blur_radius (1 # 10) 2 (draw r 1))]
      ++ map OpLib (stages normalize).
Proof.
  cbn. unfold GaussianBlur_call, random_uniform, random_random.
  rewrite blur_certain. cbn. rewrite <- !app_assoc. cbn.
  unfold draw, blur_radius. by rewrite Nat.add_1_r.
Qed.

Lemma global_transfo2_ops gs ls K x r :
  let blur := Qle_bool (draw r 0) (1 # 10) in
  let k := if blur then 2%nat else 1%nat in
  img_ops (fst (call (global_transfo2 (PatchDataAugmentationDINO_init gs ls K)) x r)) =
    img_ops x ++ [OpLib (RandomResizedCrop global_crop_size gs BICUBIC)]
      ++ map OpLib (stages flip_and_color_jitter)
      ++ (if blur then [OpGaussianBlur (blur_radius (1 # 10) 2 (draw r 1))] else [])
      ++ (if Qlt_bool (draw r k) (2 # 10) then [OpSolarize] else [])
      ++ map OpLib (stages normalize).
Proof.
  cbn. unfold GaussianBlur_call, Solarization_call, random_uniform, random_random.
  unfold draw, blur_radius. rewrite Nat.add_0_r, Nat.add_1_r.
  destruct (Qle_bool _ (1 # 10)); cbn.
  - rewrite Nat.add_comm; cbn.
    destruct (Qlt_bool _ _); cbn; rewrite <- !app_assoc; done.
  - rewrite Nat.add_1_r.
    destruct (Qlt_bool _ _); cbn; rewrite <- !app_assoc; done.
Qed.

Lemma local_transfo_ops gs ls K x r :
  img_ops (fst (call (local_transfo (PatchDataAugmentationDINO_init gs ls K)) x r)) =
    img_ops x ++ [OpLib (RandomResizedCrop local_crop_size ls BICUBIC)]
      ++ map OpLib (stages flip_and_color_jitter)
      ++ (if Qle_bool (draw r 0) (1 # 2)
          then [OpGaussianBlur (blur_radius (1 # 10) 2 (draw r 1))] else [])
      ++ map OpLib (stages normalize).
Proof.
  cbn. unfold GaussianBlur_call, random_uniform, random_random.
  unfold draw, blur_radius. rewrite Nat.add_0_r, Nat.add_1_r.
  destruct (Qle_bool _ (1 # 2)); cbn; rewrite <- !app_assoc; done.
Qed.

Lemma global_transfo1_size gs ls K x r :
  square 224 (fst (call (global_transfo1 (PatchDataAugmentationDINO_init gs ls K)) x r)).
Proof.
  cbn. unfold GaussianBlur_call, random_uniform, random_random.
  rewrite blur_certain. by cbn.
Qed.

Lemma global_transfo2_size gs ls K x r :
  square 224 (fst (call (global_transfo2 (PatchDataAugmentationDINO_init gs ls K)) x r)).
Proof.
  cbn. unfold GaussianBlur_call, Solarization_call, random_uniform, random_random.
  destruct (Qle_bool _ (1 # 10)); cbn; destruct (Qlt_bool _ _); by cbn.
Qed.

Lemma local_transfo_size gs ls K x r :
  square 96 (fst (call (local_transfo (PatchDataAugmentationDINO_init gs ls K)) x r)).
Proof.
  cbn. unfold GaussianBlur_call, random_uniform, random_random.
  destruct (Qle_bool _ (1 # 2)); by cbn.
Qed.

(** The call returns the two global crops followed by the local ones. *)
Lemma call_shape gs ls K x r :
  exists c1 c2 locals,
    fst (PatchDataAugmentationDINO_call (PatchDataAugmentationDINO_init gs ls K) x r)
      = [c1; c2] ++ locals
    /\ square 224 c1 /\ square 224 c2
    /\ length locals = Z.to_nat K /\ Forall (square 96) locals.
Proof.
  unfold PatchDataAugmentationDINO_call.
  pose proof (global_transfo1_size gs ls K x r) as H1.
  destruct (call (global_transfo1 _) x r) as [c1 r1].
  pose proof (global_transfo2_size gs ls K x r1) as H2.
  destruct (call (global_transfo2 _) x r1) as [c2 r2].
  destruct (append_crops_spec (square 96)
              (local_transfo (PatchDataAugmentationDINO_init gs ls K)) x
              (local_transfo_size gs ls K x)
              (Z.to_nat K) ([] ++ [c1] ++ [c2]) r2) as (new & Hnew & Hlen & Hall).
  exists c1, c2, new. cbn in *. rewrite Hnew. auto.
Qed.

(** C4. For every input image, every pair of scale ranges and every local
    crop count [K] (a count: not negative), the patch augmentation pipeline
    returns exactly [2 + K] crops; the crops at positions 0 and 1 are
    224 x 224 and all later ones are 96 x 96. *)
Theorem patch_pipeline_returns_2_plus_K_crops
    (gs ls : Q * Q) (K : Z) (x : Image) (r : PyRandom) :
  0 <= K ->
  let crops :=
    fst (PatchDataAugmentationDINO_call (PatchDataAugmentationDINO_init gs ls K) x r) in
  Z.of_nat (length crops) = 2 + K
  /\ (forall i c, crops !! i = Some c -> (i < 2)%nat ->
        img_w c = global_crop_size /\ img_h c = global_crop_size)
  /\ (forall i c, crops !! i = Some c -> (2 <= i)%nat ->
        img_w c = local_crop_size /\ img_h c = local_crop_size).
Proof.
  intros HK crops. subst crops.
  destruct (call_shape gs ls K x r) as (c1 & c2 & locals & -> & H1 & H2 & Hlen & Hall).
  split; [|split].
  - cbn. rewrite Hlen. lia.
  - intros i c Hi Hlt. destruct i as [|[|i]]; cbn in Hi; [| |lia].
    + by inversion Hi; subst.
    + by inversion Hi; subst.
  - intros i c Hi Hge. destruct i as [|[|i]]; [lia|lia|]. cbn in Hi.
    rewrite Forall_forall in Hall. apply Hall, list_elem_of_lookup. eauto.
Qed.

Lemma patch_pipeline_returns_2_plus_K_crops_witness :
  0 <= 8
  /\ Z.of_nat (length (fst (PatchDataAugmentationDINO_call
                              (PatchDataAugmentationDINO_init
                                 (4 # 10, 1%Q) (5 # 100, 4 # 10) 8)
                              Examples.sample_image Examples.sample_random)))
       = 2 + 8
  /\ (forall i c,
        fst (PatchDataAugmentationDINO_call
               (PatchDataAugmentationDINO_init (4 # 10, 1%Q) (5 # 100, 4 # 10) 8)
               Examples.sample_image Examples.sample_random) !! i = Some c ->
        (i < 2)%nat ->
        img_w c = global_crop_size /\ img_h c = global_crop_size)
  /\ (forall i c,
        fst (PatchDataAugmentationDINO_call
               (PatchDataAugmentationDINO_init (4 # 10, 1%Q) (5 # 100, 4 # 10) 8)
               Examples.sample_image Examples.sample_random) !! i = Some c ->
        (2 <= i)%nat ->
        img_w c = local_crop_size /\ img_h c = local_crop_size).
Proof.
  split; [lia|].
  apply (patch_pipeline_returns_2_plus_K_crops (4 # 10, 1%Q) (5 # 100, 4 # 10) 8
           Examples.sample_image Examples.sample_random).
  lia.
Defined.


End AugmentationsSpec.

(* ===================================================================== *)
(** * Part IV-b: further properties of the augmentations                  *)
(* ===================================================================== *)

Module AugmentationsExtra.
Import Augmentations Observations.

Lemma unit_float_bounds (raw : N) : (0 <= unit_float raw)%Q /\ (unit_float raw < 1)%Q.
Proof.
  unfold unit_float, Qle, Qlt; cbn.
  pose proof (Z.mod_pos_bound (Z.of_N raw) (Z.pos two53) eq_refl). lia.
Qed.

Lemma first_draw r : (random_random r).1 = draw r 0.
Proof. unfold random_random, draw; cbn. by rewrite Nat.add_0_r. Qed.

Lemma blur_radius_bounds (rmin rmax u : Q) :
  (rmin <= rmax)%Q -> (0 <= u)%Q -> (u < 1)%Q ->
  (rmin <= blur_radius rmin rmax u)%Q /\ (blur_radius rmin rmax u <= rmax)%Q.
Proof.
  intros Hle H0 H1. unfold blur_radius.
  assert (Hd : (0 <= rmax - rmin)%Q) by (apply (Qplus_le_l _ _ rmin); ring_simplify; done).
  split.
  - rewrite <- (Qplus_0_r rmin) at 1. apply Qplus_le_r.
    by apply Qmult_le_0_compat.
  - apply Qle_trans with (rmin + (rmax - rmin) * 1)%Q.
    + apply Qplus_le_r. rewrite !(Qmult_comm (rmax - rmin)).
      apply Qmult_le_compat_r; [by apply Qlt_le_weak|done].
    + assert (He : (rmin + (rmax - rmin) * 1 == rmax)%Q) by ring.
      rewrite He. apply Qle_refl.
Qed.

(** X1. [GaussianBlur] never changes the size of the image; it either
    returns the image as it is (when the draw is above the probability) or
    adds one blur whose radius lies between [radius_min] and [radius_max]. *)
Theorem GaussianBlur_radius_within_bounds
    (prob radius_min radius_max : Q) (img : Image) (r : PyRandom) :
  (radius_min <= radius_max)%Q ->
  let out := (GaussianBlur_call prob radius_min radius_max img r).1 in
  img_w out = img_w img /\ img_h out = img_h img
  /\ (if Qle_bool (draw r 0) prob
      then exists radius,
             img_ops out = img_ops img ++ [OpGaussianBlur radius]
             /\ (radius_min <= radius)%Q /\ (radius <= radius_max)%Q
      else out = img).
Proof.
  intros Hle. cbv zeta. unfold GaussianBlur_call, random_uniform, random_random, draw.
  rewrite Nat.add_0_r.
  destruct (Qle_bool (unit_float (py_src r (py_pos r))) prob) eqn:Hdo; cbn.
  - split; [done|]. split; [done|].
    eexists. split; [reflexivity|].
    destruct (unit_float_bounds (py_src (advance r) (py_pos (advance r)))) as [H0 H1].
    by apply (blur_radius_bounds radius_min radius_max).
  - done.
Qed.

Lemma GaussianBlur_radius_within_bounds_witness :
  (1 # 10 <= 2)%Q
  /\ let out := (GaussianBlur_call (1 # 2) (1 # 10) 2
                   Examples.sample_image Examples.sample_random).1 in
     img_w out = img_w Examples.sample_image
     /\ img_h out = img_h Examples.sample_image
     /\ (if Qle_bool (draw Examples.sample_random 0) (1 # 2)
         then exists radius,
                img_ops out = img_ops Examples.sample_image ++ [OpGaussianBlur radius]
                /\ (1 # 10 <= radius)%Q /\ (radius <= 2)%Q
         else out = Examples.sample_image).
Proof.
  split; [by vm_compute|].
  apply (GaussianBlur_radius_within_bounds (1 # 2) (1 # 10) 2
           Examples.sample_image Examples.sample_random).
  by vm_compute.
Defined.

Lemma app_singleton_ne {A} (l : list A) (x : A) : l ++ [x] <> l.
Proof.
  intros H. apply (f_equal length) in H. rewrite length_app in H. cbn in H. lia.
Qed.

(** X2. The ends of the range of [GaussianBlur]'s probability: below 0 the
    image is never blurred, from 1 on it always is, and at exactly 0 it is
    still blurred when the draw is exactly 0 (the test is [<=]). *)
Theorem GaussianBlur_at_the_ends_of_the_range
    (prob radius_min radius_max : Q) (img : Image) (r : PyRandom) :
  let out := (GaussianBlur_call prob radius_min radius_max img r).1 in
  ((prob < 0)%Q -> out = img)
  /\ ((1 <= prob)%Q ->
       img_ops out =
         img_ops img ++ [OpGaussianBlur (blur_radius radius_min radius_max (draw r 1))])
  /\ ((prob == 0)%Q -> (out = img <-> ~ (draw r 0 == 0)%Q)).
Proof.
  cbv zeta. unfold GaussianBlur_call, random_uniform, random_random, draw.
  rewrite Nat.add_0_r, Nat.add_1_r.
  destruct (unit_float_bounds (py_src r (py_pos r))) as [H0 H1].
  set (u := unit_float (py_src r (py_pos r))) in *.
  destruct (Qle_bool u prob) eqn:Hdo; cbn.
  - apply Qle_bool_iff in Hdo. split; [|split].
    + intros Hneg. exfalso. apply (Qlt_irrefl 0).
      apply Qle_lt_trans with u; [done|]. by apply Qle_lt_trans with prob.
    + intros _. done.
    + intros Hz. split.
      * intros Heq. apply (f_equal img_ops) in Heq. cbn in Heq.
        by apply app_singleton_ne in Heq.
      * intros Hnz. exfalso. apply Hnz. apply Qle_antisym; [|done].
        by rewrite <- Hz.
  - assert (Hgt : ~ (u <= prob)%Q).
    { intros Hle. apply Qle_bool_iff in Hle. congruence. }
    split; [done|]. split.
    + intros Hone. exfalso. apply Hgt.
      apply Qle_trans with 1%Q; [by apply Qlt_le_weak|done].
    + intros Hz. split; [|done]. intros _ Hu. apply Hgt. rewrite Hu, Hz. apply Qle_refl.
Qed.

(** X3. [Solarization] uses exactly one draw.  With a probability of 0 or
    less the image is never solarized (the test is [<], so not even at a
    draw of 0), with 1 or more it always is; in between it is solarized
    exactly when the draw is below the probability. *)
Theorem Solarization_at_the_ends_of_the_range
    (p : Q) (img : Image) (r : PyRandom) :
  let out := (Solarization_call p img r).1 in
  (Solarization_call p img r).2 = advance r
  /\ ((p <= 0)%Q -> out = img)
  /\ ((1 <= p)%Q -> out = ImageOps_solarize img)
  /\ (out = ImageOps_solarize img <-> (draw r 0 < p)%Q).
Proof.
  cbv zeta. unfold Solarization_call, random_random, draw, Qlt_bool.
  rewrite Nat.add_0_r.
  destruct (unit_float_bounds (py_src r (py_pos r))) as [H0 H1].
  set (u := unit_float (py_src r (py_pos r))) in *.
  destruct (Qle_bool p u) eqn:Hle; cbn.
  - apply Qle_bool_iff in Hle. split; [done|]. split; [done|]. split.
    + intros Hone. exfalso. apply (Qlt_irrefl u).
      apply Qlt_le_trans with 1%Q; [done|]. by apply Qle_trans with p.
    + split.
      * intros Heq. apply (f_equal img_ops) in Heq. cbn in Heq.
        symmetry in Heq. by apply app_singleton_ne in Heq.
      * intros Hlt. exfalso. apply (Qlt_irrefl u). by apply Qlt_le_trans with p.
  - assert (Hlt : (u < p)%Q).
    { apply Qnot_le_lt. intros H. apply Qle_bool_iff in H. congruence. }
    split; [done|]. split.
    + intros Hneg. exfalso. apply (Qlt_irrefl u).
      apply Qlt_le_trans with p; [done|]. by apply Qle_trans with 0%Q.
    + done.
Qed.

(** ** The whole call *)

Lemma call_structure (P1 P2 PL : Image -> Prop) (self : PatchDataAugmentationDINO) x r :
  (forall r', P1 (call (global_transfo1 self) x r').1) ->
  (forall r', P2 (call (global_transfo2 self) x r').1) ->
  (forall r', PL (call (local_transfo self) x r').1) ->
  exists c1 c2 locals,
    (PatchDataAugmentationDINO_call self x r).1 = [c1; c2] ++ locals
    /\ P1 c1 /\ P2 c2 /\ Forall PL locals
    /\ length locals = Z.to_nat (local_crops_number self).
Proof.
  intros H1 H2 HL. unfold PatchDataAugmentationDINO_call.
  specialize (H1 r). destruct (call (global_transfo1 self) x r) as [c1 r1].
  specialize (H2 r1). destruct (call (global_transfo2 self) x r1) as [c2 r2].
  destruct (AugmentationsSpec.append_crops_spec PL (local_transfo self) x HL
              (Z.to_nat (local_crops_number self)) ([] ++ [c1] ++ [c2]) r2)
    as (new & Hnew & Hlen & Hall).
  exists c1, c2, new. cbn in *. rewrite Hnew. auto.
Qed.

Ltac absent :=
  let H := fresh "H" in
  cbn; intros H;
  repeat (apply elem_of_cons in H as [H|H]; [discriminate H|]);
  by apply elem_of_nil in H.

(** X4. Every crop that the patch pipeline returns is cut from the input
    image itself: its history is the one of the input, then the resized crop
    of its kind (global for the first two, local for the others), then the
    rest.  Only the crop at position 1 can be solarized, and the crop at
    position 0 is always blurred. *)
Theorem only_the_second_crop_can_be_solarized
    (gs ls : Q * Q) (K : Z) (x : Image) (r : PyRandom) (i : nat) (c : Image) :
  (PatchDataAugmentationDINO_call (PatchDataAugmentationDINO_init gs ls K) x r).1 !! i
    = Some c ->
  exists new,
    img_ops c =
      img_ops x
      ++ OpLib (if (i <? 2)%nat
                then RandomResizedCrop global_crop_size gs BICUBIC
                else RandomResizedCrop local_crop_size ls BICUBIC) :: new
    /\ (i <> 1%nat -> OpSolarize ∉ new)
    /\ (i = 0%nat -> exists radius, OpGaussianBlur radius ∈ new).
Proof.
  set (aug := PatchDataAugmentationDINO_init gs ls K).
  set (P1 := fun c => exists new,
    img_ops c = img_ops x ++ OpLib (RandomResizedCrop global_crop_size gs BICUBIC) :: new
    /\ (OpSolarize ∉ new) /\ exists radius, OpGaussianBlur radius ∈ new).
  set (P2 := fun c => exists new,
    img_ops c = img_ops x ++ OpLib (RandomResizedCrop global_crop_size gs BICUBIC) :: new).
  set (PL := fun c => exists new,
    img_ops c = img_ops x ++ OpLib (RandomResizedCrop local_crop_size ls BICUBIC) :: new
    /\ (OpSolarize ∉ new)).
  assert (H1 : forall r', P1 (call (global_transfo1 aug) x r').1).
  { intros r'. unfold P1, aug. rewrite AugmentationsSpec.global_transfo1_ops.
    eexists. split; [reflexivity|]. split; [absent|].
    eexists. cbn. repeat (apply elem_of_cons; first [by left | right]). }
  assert (H2 : forall r', P2 (call (global_transfo2 aug) x r').1).
  { intros r'. unfold P2, aug.
    pose proof (AugmentationsSpec.global_transfo2_ops gs ls K x r') as Hops.
    cbv zeta in Hops. rewrite Hops. eexists. reflexivity. }
  assert (HL : forall r', PL (call (local_transfo aug) x r').1).
  { intros r'. unfold PL, aug. rewrite AugmentationsSpec.local_transfo_ops.
    eexists. split; [reflexivity|].
    destruct (Qle_bool _ _); absent. }
  destruct (call_structure P1 P2 PL aug x r H1 H2 HL)
    as (c1 & c2 & locals & -> & Hc1 & Hc2 & Hloc & _).
  intros Hi. destruct i as [|[|i]]; cbn in Hi.
  - injection Hi as <-. destruct Hc1 as (new & Hops & Hns & Hb).
    exists new. cbn. auto.
  - injection Hi as <-. destruct Hc2 as (new & Hops).
    exists new. cbn. split; [done|]. split; [done|]. intros; lia.
  - rewrite Forall_forall in Hloc.
    destruct (Hloc c) as (new & Hops & Hns); [apply list_elem_of_lookup; eauto|].
    exists new. cbn. split; [done|]. split; [done|]. intros; lia.
Qed.

Lemma only_the_second_crop_can_be_solarized_witness :
  (PatchDataAugmentationDINO_call
     (PatchDataAugmentationDINO_init (4 # 10, 1%Q) (5 # 100, 4 # 10) 8)
     Examples.sample_image Examples.sample_random).1 !! 0%nat
    = Some (call (global_transfo1
                    (PatchDataAugmentationDINO_init (4 # 10, 1%Q) (5 # 100, 4 # 10) 8))
              Examples.sample_image Examples.sample_random).1
  /\ exists new,
       img_ops (call (global_transfo1
                        (PatchDataAugmentationDINO_init (4 # 10, 1%Q) (5 # 100, 4 # 10) 8))
                  Examples.sample_image Examples.sample_random).1 =
         img_ops Examples.sample_image
         ++ OpLib (if (0 <? 2)%nat
                   then RandomResizedCrop global_crop_size (4 # 10, 1%Q) BICUBIC
                   else RandomResizedCrop local_crop_size (5 # 100, 4 # 10) BICUBIC) :: new
       /\ (0%nat <> 1%nat -> OpSolarize ∉ new)
       /\ (0%nat = 0%nat -> exists radius, OpGaussianBlur radius ∈ new).
Proof.
  split; [vm_compute; reflexivity|].
  apply (only_the_second_crop_can_be_solarized (4 # 10, 1%Q) (5 # 100, 4 # 10) 8
           Examples.sample_image Examples.sample_random 0).
  vm_compute; reflexivity.
Defined.

(** ** The use of the generator *)

Lemma moved_on_trans lo1 hi1 lo2 hi2 r r1 r2 :
  moved_on lo1 hi1 r r1 -> moved_on lo2 hi2 r1 r2 ->
  moved_on (lo1 + lo2) (hi1 + hi2) r r2.
Proof.
  intros (Hs1 & Hl1 & Hh1) (Hs2 & Hl2 & Hh2). unfold moved_on.
  rewrite Hs2, Hs1. split; [done|]. lia.
Qed.

Lemma global_transfo1_moves gs ls K x r :
  moved_on 2 2 r (call (global_transfo1 (PatchDataAugmentationDINO_init gs ls K)) x r).2.
Proof.
  cbn. unfold GaussianBlur_call, random_uniform, random_random.
  rewrite AugmentationsSpec.blur_certain. cbn. unfold moved_on; cbn; (split; [done|lia]).
Qed.

Lemma global_transfo2_moves gs ls K x r :
  moved_on 2 3 r (call (global_transfo2 (PatchDataAugmentationDINO_init gs ls K)) x r).2.
Proof.
  cbn. unfold GaussianBlur_call, Solarization_call, random_uniform, random_random.
  destruct (Qle_bool _ (1 # 10)); cbn; destruct (Qlt_bool _ _); cbn;
    unfold moved_on; cbn; (split; [done|lia]).
Qed.

Lemma local_transfo_moves gs ls K x r :
  moved_on 1 2 r (call (local_transfo (PatchDataAugmentationDINO_init gs ls K)) x r).2.
Proof.
  cbn. unfold GaussianBlur_call, random_uniform, random_random.
  destruct (Qle_bool _ (1 # 2)); cbn; unfold moved_on; cbn; (split; [done|lia]).
Qed.

Lemma append_crops_moves t x :
  (forall r, moved_on 1 2 r (call t x r).2) ->
  forall n crops r, moved_on n (2 * n) r (append_crops n t x crops r).2.
Proof.
  intros Ht. induction n as [|n IH]; intros crops r; cbn [append_crops].
  - unfold moved_on; cbn; (split; [done|lia]).
  - specialize (Ht r). destruct (call t x r) as [c r1]. cbn in Ht.
    pose proof (moved_on_trans _ _ _ _ _ _ _ Ht (IH (crops ++ [c]) r1)) as H.
    replace (2 * S n)%nat with (2 + 2 * n)%nat by lia. exact H.
Qed.

(** X5. One call of the patch pipeline with [K] local crops takes between
    [4 + K] and [5 + 2 K] values from Python's [random], depending on which
    blurs are applied, and nothing else changes in the generator. *)
Theorem patch_pipeline_draws_between_4_plus_K_and_5_plus_2K
    (gs ls : Q * Q) (K : Z) (x : Image) (r : PyRandom) :
  let r' :=
    (PatchDataAugmentationDINO_call (PatchDataAugmentationDINO_init gs ls K) x r).2 in
  py_src r' = py_src r
  /\ (py_pos r + 4 + Z.to_nat K <= py_pos r')%nat
  /\ (py_pos r' <= py_pos r + 5 + 2 * Z.to_nat K)%nat.
Proof.
  cbv zeta. unfold PatchDataAugmentationDINO_call.
  pose proof (global_transfo1_moves gs ls K x r) as H1.
  destruct (call (global_transfo1 _) x r) as [c1 r1]. cbn [snd] in H1.
  pose proof (global_transfo2_moves gs ls K x r1) as H2.
  destruct (call (global_transfo2 _) x r1) as [c2 r2]. cbn [snd] in H2.
  pose proof (append_crops_moves
                (local_transfo (PatchDataAugmentationDINO_init gs ls K)) x
                (local_transfo_moves gs ls K x)
                (Z.to_nat K) (([] ++ [c1]) ++ [c2]) r2) as H3.
  pose proof (moved_on_trans _ _ _ _ _ _ _ (moved_on_trans _ _ _ _ _ _ _ H1 H2) H3)
    as (Hs & Hlo & Hhi).
  cbn [local_crops_number PatchDataAugmentationDINO_init].
  split; [done|]. lia.
Qed.

End AugmentationsExtra.

Module RegionExtra.
Import Region.


Lemma init_ok gs K ls region_size patch_size :
  patch_size <> 0 ->
  RegionDataAugmentationDINO_init gs K ls region_size patch_size =
    inr {| npatch := region_size / patch_size;
           global_transfo1 :=
             Compose [RandomCrop (py_int (gs * inject_Z (region_size / patch_size)));
                      RandomHorizontalFlip (1 # 2)];
           global_transfo2 :=
             Compose [RandomCrop (py_int (gs * inject_Z (region_size / patch_size)));
                      RandomHorizontalFlip (1 # 2)];
           local_crops_number := K;
           local_transfo :=
             Compose [RandomCrop (py_int (ls * inject_Z (region_size / patch_size)));
                      RandomHorizontalFlip (1 # 2)] |}.
Proof.
  intros Hp. unfold RegionDataAugmentationDINO_init, floordiv.
  by destruct (Z.eqb_spec patch_size 0).
Qed.









(** X8. The region pipeline raises a [RuntimeError], whatever the scales,
    when the tensor has fewer tokens than one row of the grid, or when
    [region_size // patch_size] is not positive. *)
Theorem region_pipeline_needs_one_row_of_tokens
    (gs ls : Q) (K region_size patch_size m : Z) (rest : list Z) (x : Tensor) :
  patch_size <> 0 ->
  shape x = m :: rest ->
  (region_size / patch_size <= 0 \/ m < region_size / patch_size) ->
  exists self,
    RegionDataAugmentationDINO_init gs K ls region_size patch_size = inr self
    /\ RegionDataAugmentationDINO_call self x = inl RuntimeError.
Proof.
  intros Hp Hx Hbad.
  set (n := region_size / patch_size) in *.
  eexists. split; [by apply init_ok|].
  unfold RegionDataAugmentationDINO_call, to_grid, unfold0. cbn [npatch]. fold n.
  rewrite Hx.
  replace ((n <=? 0) || (n <? 0) || (m <? n)) with true; [done|].
  symmetry. rewrite !orb_true_iff, Z.leb_le, !Z.ltb_lt. tauto.
Qed.

Lemma region_pipeline_needs_one_row_of_tokens_witness :
  Region.default_patch_size <> 0
  /\ shape ExamplesExtra.short_features = 10 :: [384]
  /\ (Region.default_region_size / Region.default_patch_size <= 0
      \/ 10 < Region.default_region_size / Region.default_patch_size)
  /\ exists self,
       RegionDataAugmentationDINO_init (9 # 10) 8 (3 # 10)
         Region.default_region_size Region.default_patch_size = inr self
       /\ RegionDataAugmentationDINO_call self ExamplesExtra.short_features
          = inl RuntimeError.
Proof.
  assert (H : Region.default_region_size / Region.default_patch_size <= 0
              \/ 10 < Region.default_region_size / Region.default_patch_size)
    by (right; reflexivity).
  split; [done|]. split; [reflexivity|]. split; [exact H|].
  apply (region_pipeline_needs_one_row_of_tokens (9 # 10) (3 # 10) 8
           Region.default_region_size Region.default_patch_size 10 [384]
           ExamplesExtra.short_features); done.
Defined.

End RegionExtra.

(* ===================================================================== *)
(** * Part V: properties of the training driver                           *)
(* ===================================================================== *)

Module PatchSpec.
Import Patch.

(** ** The monad *)

Ltac run :=
  repeat (unfold mbind, M_bind, mret, M_ret, emit, raise, get_fs, put_fs, when; cbn).

(** Membership in a list that is written out. *)
Ltac in_list :=
  cbn; repeat (apply elem_of_cons; first [by left | right]).

Ltac not_in_list :=
  let H := fresh "H" in
  cbn; intros H;
  repeat (apply elem_of_cons in H as [H|H]; [discriminate H|]);
  by apply elem_of_nil in H.

Lemma bind_Done {A B} (c : M A) (f : A -> M B) w a w' :
  c w = Done a w' -> (c ≫= f) w = f a w'.
Proof. intros H. unfold mbind, M_bind. by rewrite H. Qed.

Lemma bind_Raised {A B} (c : M A) (f : A -> M B) w e w' :
  c w = Raised e w' -> (c ≫= f) w = Raised e w'.
Proof. intros H. unfold mbind, M_bind. by rewrite H. Qed.

Lemma World_eta w : {| fs := fs w; trace := trace w |} = w.
Proof. by destruct w. Qed.

(** ** The start *)

Lemma main_startup_eq cfg p from_rank0 w :
  main_startup cfg p from_rank0 w =
    let out := Path_of [train_output_dir cfg; final_run_id cfg p from_rank0] in
    Done (set_train_output_dir cfg (path_str out), dirs_of out)
         {| fs := fs w; trace := trace w ++ startup_events cfg p |}.
Proof.
  unfold main_startup, init_distributed, make_run_id, broadcast_run_id,
    final_run_id, startup_events, dirs_of, local_run_id.
  destruct (distributed p), (is_main_process p), (wandb_enable cfg); run;
    rewrite <- ?app_assoc; try done; by destruct (rank p =? 0).
Qed.

Lemma main_build_eq X cfg p w :
  main_build X cfg p w =
    Done {| student := build_student X cfg; teacher := build_student X cfg;
            optimizer := build_optimizer X cfg; dino_loss := build_dino_loss X cfg;
            fp16_scaler := if speed_use_fp16 cfg then Some (GradScaler X) else None |}
         {| fs := fs w; trace := trace w ++ build_events cfg p |}.
Proof.
  unfold main_build, build_events.
  destruct (is_main_process p), (truthy (tune_tune_every cfg)), (speed_use_fp16 cfg);
    run; rewrite <- ?app_assoc; done.
Qed.

Lemma main_prepare_keeps_schedule cfg0 p from_rank0 w cfg d w1 :
  main_prepare cfg0 p from_rank0 w = Done (cfg, d) w1 ->
  optim_epochs cfg = optim_epochs cfg0
  /\ optim_warmup_epochs cfg = optim_warmup_epochs cfg0.
Proof.
  unfold main_prepare. unfold mbind at 1, M_bind at 1.
  rewrite main_startup_eq. cbv zeta. unfold mbind, M_bind.
  destruct (prepare_dirs _ _ _ _); [|done].
  unfold mret, M_ret. intros [= <- <- <-]. done.
Qed.

(** C6. In a job of several processes, listed by rank, a process makes a run
    identifier itself exactly when it is the process of rank 0; what rank 0
    made is broadcast, and every process ends its start-up with the same
    output directory: the configured directory joined with the identifier
    of rank 0 (the identifier of its tracked run if tracking is on, its time
    stamp otherwise). *)
Theorem run_id_made_by_rank0_and_shared_by_all
    (cfg : Cfg) (procs : list Proc) (w : World) (i : nat) (p : Proc) :
  (forall j q, procs !! j = Some q -> rank q = Z.of_nat j /\ distributed q = true) ->
  procs !! i = Some p ->
  exists p0 cfg' d w',
    procs !! 0%nat = Some p0
    /\ startup_all cfg procs w !! i = Some (Done (cfg', d) w')
    /\ output_dir d =
         Path_of [train_output_dir cfg;
                  if wandb_enable cfg then wandb_run_id p0 else now_strftime p0]
    /\ train_output_dir cfg' = path_str (output_dir d)
    /\ (exists new, trace w' = trace w ++ new
         /\ EvBroadcastObjectList 0 ∈ new
         /\ generated_run_ids new =
              if bool_decide (i = 0%nat) then
                now_strftime p0
                :: (if wandb_enable cfg then [wandb_run_id p0] else [])
              else []).
Proof.
  intros Hranks Hi.
  destruct procs as [|p0 rest] eqn:Hprocs; [done|]. rewrite <- Hprocs in *.
  assert (H0 : procs !! 0%nat = Some p0) by by rewrite Hprocs.
  destruct (Hranks _ _ H0) as [Hr0 Hd0].
  destruct (Hranks _ _ Hi) as [Hr Hd].
  assert (Hmain0 : is_main_process p0 = true).
  { unfold is_main_process, get_rank. rewrite Hd0, Hr0. done. }
  assert (Hobj : rank0_object cfg procs =
                 if wandb_enable cfg then wandb_run_id p0 else now_strftime p0).
  { rewrite Hprocs. cbn. unfold local_run_id. by rewrite Hmain0. }
  eexists p0, _, _, _. split; [done|].
  split.
  { unfold startup_all. rewrite list_lookup_fmap, Hi. cbn.
    rewrite main_startup_eq. cbv zeta. reflexivity. }
  cbn [output_dir dirs_of train_output_dir set_train_output_dir trace].
  assert (Hid : final_run_id cfg p (rank0_object cfg procs) =
                if wandb_enable cfg then wandb_run_id p0 else now_strftime p0).
  { unfold final_run_id. rewrite Hd.
    destruct (rank p =? 0) eqn:Hz; [|done].
    apply Z.eqb_eq in Hz. rewrite Hr in Hz.
    assert (i = 0%nat) as -> by lia.
    rewrite H0 in Hi. injection Hi as <-.
    unfold local_run_id. by rewrite Hmain0. }
  rewrite Hid. split; [done|]. split; [done|].
  exists (startup_events cfg p). split; [done|].
  unfold startup_events. rewrite Hd.
  unfold is_main_process, get_rank. rewrite Hd, Hr.
  destruct i as [|i].
  - rewrite H0 in Hi. injection Hi as <-. cbn.
    split; [|by destruct (wandb_enable cfg)].
    destruct (wandb_enable cfg); in_list.
  - replace (Z.of_nat (S i) =? 0) with false by (symmetry; apply Z.eqb_neq; lia).
    cbn. split; [|done]. in_list.
Qed.

Lemma run_id_made_by_rank0_and_shared_by_all_witness :
  (forall j q, [Examples.rank0; Examples.rank1] !! j = Some q ->
               rank q = Z.of_nat j /\ distributed q = true)
  /\ [Examples.rank0; Examples.rank1] !! 1%nat = Some Examples.rank1
  /\ exists p0 cfg' d w',
       [Examples.rank0; Examples.rank1] !! 0%nat = Some p0
       /\ startup_all Examples.cfg0 [Examples.rank0; Examples.rank1]
            Examples.empty_world !! 1%nat = Some (Done (cfg', d) w')
       /\ output_dir d =
            Path_of [train_output_dir Examples.cfg0;
                     if wandb_enable Examples.cfg0
                     then wandb_run_id p0 else now_strftime p0]
       /\ train_output_dir cfg' = path_str (output_dir d)
       /\ (exists new, trace w' = trace Examples.empty_world ++ new
            /\ EvBroadcastObjectList 0 ∈ new
            /\ generated_run_ids new =
                 if bool_decide (1%nat = 0%nat) then
                   now_strftime p0
                   :: (if wandb_enable Examples.cfg0 then [wandb_run_id p0] else [])
                 else []).
Proof.
  assert (H : forall j q, [Examples.rank0; Examples.rank1] !! j = Some q ->
                          rank q = Z.of_nat j /\ distributed q = true).
  { intros [|[|j]] q Hq; cbn in Hq; [| |done]; injection Hq as <-; done. }
  split; [exact H|]. split; [reflexivity|].
  apply (run_id_made_by_rank0_and_shared_by_all Examples.cfg0
           [Examples.rank0; Examples.rank1] Examples.empty_world 1 Examples.rank1 H).
  reflexivity.
Defined.

(** ** The directories *)

Lemma remove_tree_within (p : Path) (fs0 : FS) (q : Path) :
  within p q -> remove_tree p fs0 !! q = None.
Proof.
  intros Hw. unfold remove_tree. apply map_lookup_filter_None.
  destruct (fs0 !! q) eqn:Hq; [right|by left].
  intros x _ Hn. by apply Hn.
Qed.

Lemma remove_tree_outside (p : Path) (fs0 : FS) (q : Path) :
  ~ within p q -> remove_tree p fs0 !! q = fs0 !! q.
Proof.
  intros Hw. unfold remove_tree.
  destruct (fs0 !! q) eqn:Hq.
  - by apply map_lookup_filter_Some.
  - apply map_lookup_filter_None. by left.
Qed.

Lemma parents_spec (a q : Path) :
  a ∈ parents q -> a `prefix_of` q /\ (length a < length q)%nat /\ a <> [].
Proof.
  unfold parents. intros Ha. apply list_elem_of_fmap in Ha as (n & -> & Hn).
  apply list_elem_of_In, in_seq in Hn.
  split; [apply prefix_take|].
  rewrite length_take. split; [lia|].
  intros H. apply (f_equal length) in H. rewrite length_take in H. cbn in H. lia.
Qed.

Lemma parents_not_within (a q : Path) : a ∈ parents q -> ~ within q a.
Proof.
  intros Ha Hw. apply parents_spec in Ha as (_ & Hlen & _).
  apply prefix_length in Hw. lia.
Qed.

Lemma parents_snoc (q : Path) (s : string) :
  q <> [] -> parents (q ++ [s]) = parents q ++ [q].
Proof.
  intros Hq. unfold parents. rewrite length_app. cbn [length].
  replace (length q + 1 - 1)%nat with (S (length q - 1))%nat
    by (destruct q; [done|cbn; lia]).
  rewrite seq_S, map_app. cbn [map]. f_equal.
  - apply map_ext_in. intros n Hn. apply in_seq in Hn.
    apply take_app_le. lia.
  - replace (1 + (length q - 1))%nat with (length q)
      by (destruct q; [done|cbn; lia]).
    by rewrite take_app_length.
Qed.

Lemma well_formed_parents (fs0 : FS) (q a : Path) :
  well_formed fs0 = true -> is_Some (fs0 !! q) -> a ∈ parents q ->
  fs0 !! a = Some Dir.
Proof.
  unfold well_formed. rewrite forallb_forall. intros Hwf [n Hq] Ha.
  specialize (Hwf (q, n)). cbn in Hwf. rewrite forallb_forall in Hwf.
  assert (Hd : is_dir fs0 a = true).
  { apply Hwf; [|by apply list_elem_of_In].
    by apply list_elem_of_In, elem_of_map_to_list. }
  unfold is_dir in Hd. by destruct (fs0 !! a) as [[|]|].
Qed.

Lemma make_dirs_present (ps : list Path) (w : World) :
  Forall (fun a => fs w !! a = Some Dir) ps -> make_dirs ps w = Done tt w.
Proof.
  induction 1 as [|a ps Ha _ IH]; cbn; [done|].
  run. by rewrite Ha.
Qed.

Lemma mkdir_parents_fresh (q : Path) (exist_ok : bool) (w : World) :
  fs w !! q = None ->
  Forall (fun a => fs w !! a = Some Dir) (parents q) ->
  mkdir_parents q exist_ok w =
    Done tt {| fs := <[q := Dir]> (fs w); trace := trace w ++ [EvMkdir q] |}.
Proof.
  intros Hq Hps. unfold mkdir_parents. run. rewrite Hq. run.
  rewrite make_dirs_present; [done|]. done.
Qed.

Lemma parents_of_child_present (fs0 : FS) (out : Path) (s : string) :
  fs0 !! out = Some Dir ->
  Forall (fun a => fs0 !! a = Some Dir) (parents out) ->
  Forall (fun a => fs0 !! a = Some Dir) (parents (out ++ [s])).
Proof.
  intros Hout Hps. destruct out as [|c out']; [by cbn|].
  rewrite parents_snoc by done. apply Forall_app. split; [done|].
  by apply Forall_singleton.
Qed.

Lemma present_after_insert (fs0 : FS) (q : Path) (ps : list Path) :
  Forall (fun a => fs0 !! a = Some Dir) ps ->
  Forall (fun a => <[q := Dir]> fs0 !! a = Some Dir) ps.
Proof.
  intros H. eapply Forall_impl; [exact H|]. intros a Ha. cbn in *.
  destruct (decide (q = a)) as [->|Hne];
    [by rewrite lookup_insert_eq | by rewrite lookup_insert_ne].
Qed.

Lemma child_within (out : Path) (s : string) : within out (out ++ [s]).
Proof. by apply prefix_app_r. Qed.

Lemma child_neq (out : Path) (s : string) : out ++ [s] <> out.
Proof.
  intros H. apply (f_equal length) in H. rewrite length_app in H. cbn in H. lia.
Qed.

Lemma dirs_of_output out : output_dir (dirs_of out) = out.
Proof. done. Qed.

Lemma dirs_of_snapshots out : snapshot_dir (dirs_of out) = out ++ ["snapshots"].
Proof. done. Qed.

Lemma dirs_of_features out : features_dir (dirs_of out) = out ++ ["features"].
Proof. done. Qed.

Lemma rmtree_dir (q : Path) (w : World) :
  fs w !! q = Some Dir ->
  rmtree q w =
    Done tt {| fs := remove_tree q (fs w); trace := trace w ++ [EvRmtree q] |}.
Proof. intros Hq. unfold rmtree. run. rewrite Hq. by run. Qed.

(** The file system after the directories of a fresh run were prepared over
    an existing run directory. *)
Lemma prepare_dirs_over_existing (cfg : Cfg) (p : Proc) (out : Path) (w : World) :
  train_resume cfg = false -> is_main_process p = true ->
  well_formed (fs w) = true -> fs w !! out = Some Dir ->
  let features := truthy (tune_tune_every cfg) && tune_knn_save_features cfg in
  let fs2 := <[out ++ ["snapshots"] := Dir]> (<[out := Dir]> (remove_tree out (fs w))) in
  prepare_dirs cfg p (dirs_of out) w =
    Done tt {| fs := if features then <[out ++ ["features"] := Dir]> fs2 else fs2;
               trace := trace w
                 ++ [EvRmtree out; EvMkdir out; EvMkdir (out ++ ["snapshots"])]
                 ++ (if features then [EvMkdir (out ++ ["features"])] else []) |}.
Proof.
  intros Hres Hmain Hwf Hout. cbv zeta.
  unfold prepare_dirs. rewrite Hres, Hmain. cbn [negb andb].
  rewrite dirs_of_output, dirs_of_snapshots, dirs_of_features.
  assert (Hps : Forall (fun a => remove_tree out (fs w) !! a = Some Dir) (parents out)).
  { apply Forall_forall. intros a Ha.
    rewrite remove_tree_outside by by apply parents_not_within.
    by apply (well_formed_parents (fs w) out a). }
  set (fs1 := <[out := Dir]> (remove_tree out (fs w))).
  assert (Hout1 : fs1 !! out = Some Dir) by apply lookup_insert_eq.
  assert (Hps1 : Forall (fun a => fs1 !! a = Some Dir) (parents out))
    by by apply present_after_insert.
  assert (Hchild : forall s, fs1 !! (out ++ [s]) = None).
  { intros s. unfold fs1.
    rewrite lookup_insert_ne by (intros H; by apply (child_neq out s)).
    apply remove_tree_within, child_within. }
  erewrite (bind_Done get_fs); [|reflexivity].
  unfold path_exists. rewrite Hout.
  (* rmtree, then the run directory again *)
  erewrite bind_Done; cycle 1.
  { erewrite bind_Done; [|by apply rmtree_dir].
    apply mkdir_parents_fresh; cbn [fs trace]; [by apply remove_tree_within|done]. }
  (* the snapshots *)
  erewrite bind_Done; cycle 1.
  { apply mkdir_parents_fresh; cbn [fs trace];
      [apply Hchild | by apply parents_of_child_present]. }
  cbn [fs trace]. rewrite <- !app_assoc. cbn [app]. fold fs1.
  destruct (truthy (tune_tune_every cfg) && tune_knn_save_features cfg).
  - rewrite mkdir_parents_fresh; cbn [fs trace].
    + by rewrite <- !app_assoc.
    + rewrite lookup_insert_ne; [apply Hchild|].
      intros H. apply app_inv_head in H. done.
    + apply present_after_insert. by apply parents_of_child_present.
  - by run.
Qed.

(** C9. When [cfg.train.resume] is false and the output directory of the run
    exists at the start, the coordinating process removes the whole tree
    ([shutil.rmtree]) and then makes the directory again: afterwards the
    directory is there, it holds no file at all and nothing but the new
    directories for snapshots and (if features are kept) features; what lies
    outside it is as before. *)
Theorem fresh_run_destroys_existing_output_dir
    (cfg : Cfg) (p : Proc) (out : Path) (w : World) :
  train_resume cfg = false ->
  is_main_process p = true ->
  well_formed (fs w) = true ->
  fs w !! out = Some Dir ->
  exists w' rest,
    prepare_dirs cfg p (dirs_of out) w = Done tt w'
    /\ trace w' = trace w ++ EvRmtree out :: EvMkdir out :: rest
    /\ fs w' !! out = Some Dir
    /\ (forall q c, within out q -> fs w' !! q <> Some (File c))
    /\ (forall q, below out q ->
          q <> snapshot_dir (dirs_of out) -> q <> features_dir (dirs_of out) ->
          fs w' !! q = None)
    /\ (forall q, ~ within out q -> fs w' !! q = fs w !! q).
Proof.
  intros Hres Hmain Hwf Hout.
  pose proof (prepare_dirs_over_existing cfg p out w Hres Hmain Hwf Hout) as Heq.
  cbv zeta in Heq. eexists _, _. split; [exact Heq|]. cbn [fs trace].
  split; [reflexivity|].
  set (fs2 := <[out ++ ["snapshots"] := Dir]> (<[out := Dir]> (remove_tree out (fs w)))).
  assert (H2 : forall q, fs2 !! q =
             if decide (q = out ++ ["snapshots"]) then Some Dir
             else if decide (q = out) then Some Dir
             else if decide (within out q) then None else fs w !! q).
  { intros q. unfold fs2.
    destruct (decide (q = out ++ ["snapshots"])) as [->|H1];
      [by rewrite lookup_insert_eq|]. rewrite lookup_insert_ne by done.
    destruct (decide (q = out)) as [->|H0];
      [by rewrite lookup_insert_eq|]. rewrite lookup_insert_ne by done.
    destruct (decide (within out q));
      [by apply remove_tree_within | by apply remove_tree_outside]. }
  assert (H3 : forall q,
             (if truthy (tune_tune_every cfg) && tune_knn_save_features cfg
              then <[out ++ ["features"] := Dir]> fs2 else fs2) !! q = Some Dir
             \/ (if truthy (tune_tune_every cfg) && tune_knn_save_features cfg
                 then <[out ++ ["features"] := Dir]> fs2 else fs2) !! q = fs2 !! q).
  { intros q. destruct (truthy _ && _); [|by right].
    destruct (decide (out ++ ["features"] = q)) as [<-|Hne];
      [left; by rewrite lookup_insert_eq | right; by rewrite lookup_insert_ne]. }
  assert (H4 : forall q, q <> out ++ ["features"] ->
             (if truthy (tune_tune_every cfg) && tune_knn_save_features cfg
              then <[out ++ ["features"] := Dir]> fs2 else fs2) !! q = fs2 !! q).
  { intros q Hq. destruct (truthy _ && _); [|done]. by rewrite lookup_insert_ne. }
  split; [|split; [|split]].
  - destruct (H3 out) as [->| ->]; [done|]. rewrite H2.
    destruct (decide (out = out ++ ["snapshots"])); [done|].
    by destruct (decide (out = out)).
  - intros q c Hq. destruct (H3 q) as [->| ->]; [done|]. rewrite H2.
    destruct (decide (q = out ++ ["snapshots"])); [done|].
    destruct (decide (q = out)); [done|].
    by destruct (decide (within out q)).
  - intros q [Hq Hne] Hs Hf. cbn in Hs, Hf. rewrite H4 by done. rewrite H2.
    destruct (decide (q = out ++ ["snapshots"])); [done|].
    destruct (decide (q = out)); [done|].
    by destruct (decide (within out q)).
  - intros q Hq.
    assert (q <> out ++ ["features"]) by (intros ->; apply Hq, child_within).
    assert (q <> out ++ ["snapshots"]) by (intros ->; apply Hq, child_within).
    assert (q <> out) by (intros ->; by apply Hq).
    rewrite H4 by done. rewrite H2.
    destruct (decide (q = out ++ ["snapshots"])); [done|].
    destruct (decide (q = out)); [done|].
    by destruct (decide (within out q)).
Qed.

Lemma fresh_run_destroys_existing_output_dir_witness :
  train_resume Examples.cfg0 = false
  /\ is_main_process Examples.single = true
  /\ well_formed (fs Examples.old_world) = true
  /\ fs Examples.old_world !! Examples.run_dir = Some Dir
  /\ exists w' rest,
       prepare_dirs Examples.cfg0 Examples.single (dirs_of Examples.run_dir)
         Examples.old_world = Done tt w'
       /\ trace w' = trace Examples.old_world
                       ++ EvRmtree Examples.run_dir :: EvMkdir Examples.run_dir :: rest
       /\ fs w' !! Examples.run_dir = Some Dir
       /\ (forall q c, within Examples.run_dir q -> fs w' !! q <> Some (File c))
       /\ (forall q, below Examples.run_dir q ->
             q <> snapshot_dir (dirs_of Examples.run_dir) ->
             q <> features_dir (dirs_of Examples.run_dir) ->
             fs w' !! q = None)
       /\ (forall q, ~ within Examples.run_dir q ->
             fs w' !! q = fs Examples.old_world !! q).
Proof.
  split; [reflexivity|]. split; [reflexivity|].
  split; [vm_compute; reflexivity|]. split; [vm_compute; reflexivity|].
  apply (fresh_run_destroys_existing_output_dir Examples.cfg0 Examples.single
           Examples.run_dir Examples.old_world).
  - reflexivity.
  - reflexivity.
  - vm_compute; reflexivity.
  - vm_compute; reflexivity.
Defined.

(** ** The schedules *)

Lemma base_lr_total_batch cfg p :
  (base_lr cfg p ==
     optim_lr cfg * (inject_Z (train_batch_size_per_gpu cfg) * inject_Z (get_world_size p) / 256))%Q.
Proof.
  unfold base_lr. rewrite inject_Z_mult. unfold Qdiv. ring.
Qed.

(** C10. The base value handed to the schedule generator for the learning
    rate is [lr * (batch_size_per_gpu * world_size) / 256]: the configured
    learning rate scaled linearly with the total batch size, and equal to it
    only when that size is 256 (or the rate is zero).  The two other
    schedules get their configured values unchanged. *)
Theorem lr_schedule_base_is_lr_scaled_by_total_batch
    (X : Collaborators) (cfg : Cfg) (p : Proc) (w : World) :
  let scaled :=
    (optim_lr cfg * inject_Z (train_batch_size_per_gpu cfg * get_world_size p) / 256)%Q in
  main_schedules X cfg p w =
    (if optim_warmup_epochs cfg <=? optim_epochs cfg then
       Done tt {| fs := fs w;
                  trace := trace w ++
                    [ EvCosineScheduler scaled (lr_scheduler_min_lr cfg)
                        (optim_epochs cfg) (len_data_loader X cfg) (optim_warmup_epochs cfg);
                      EvCosineScheduler (lr_scheduler_weight_decay cfg)
                        (lr_scheduler_weight_decay_end cfg)
                        (optim_epochs cfg) (len_data_loader X cfg) 0;
                      EvCosineScheduler (teacher_momentum_teacher cfg) 1
                        (optim_epochs cfg) (len_data_loader X cfg) 0 ] |}
     else Raised (AssertionError (optim_epochs cfg) (optim_warmup_epochs cfg)) w)
  /\ (scaled ==
        optim_lr cfg *
          (inject_Z (train_batch_size_per_gpu cfg) * inject_Z (get_world_size p) / 256))%Q
  /\ ((scaled == optim_lr cfg)%Q <->
        (optim_lr cfg == 0)%Q \/ train_batch_size_per_gpu cfg * get_world_size p = 256).
Proof.
  cbv zeta. split; [|split].
  - unfold main_schedules. run.
    destruct (optim_warmup_epochs cfg <=? optim_epochs cfg); run; [|done].
    rewrite <- !app_assoc. done.
  - apply base_lr_total_batch.
  - set (n := train_batch_size_per_gpu cfg * get_world_size p).
    split.
    + intros H.
      destruct (Qeq_dec (optim_lr cfg) 0) as [H0|H0]; [by left|right].
      assert (Hn : (inject_Z n == 256)%Q).
      { apply (Qmult_inj_l _ _ (optim_lr cfg) H0).
        rewrite <- H at 2. field. }
      unfold Qeq in Hn; cbn in Hn. lia.
    + intros [H0|Hn].
      * rewrite H0. unfold Qdiv. ring.
      * rewrite Hn. field.
Qed.

(** C3, as the code has it.  When [epochs < warmup_epochs], [main] ends
    with the assertion error, which nothing catches: no schedule is computed,
    no snapshot restored, no epoch trained.  The assertion is reached only
    after the directories were prepared and the configuration file written,
    and after the data set and its loader, the networks, the loss and the
    optimizer (and the gradient scaler, if any) were created; if the
    preparation of the directories fails, that error ends [main] instead. *)
Theorem warmup_longer_than_training_fails_after_setup
    (X : Collaborators) (cfg0 : Cfg) (p : Proc) (from_rank0 : string) (w : World) :
  optim_epochs cfg0 < optim_warmup_epochs cfg0 ->
  main X cfg0 p from_rank0 w =
    match main_prepare cfg0 p from_rank0 w with
    | Done (cfg, d) w1 =>
        Raised (AssertionError (optim_epochs cfg0) (optim_warmup_epochs cfg0))
          {| fs := fs w1;
             trace := trace w1
               ++ (if is_main_process p then [EvWriteConfig (train_output_dir cfg)] else [])
               ++ (if is_main_process p && truthy (tune_tune_every cfg)
                   then [EvPrepareTuningData] else [])
               ++ [EvMakeDataset; EvDataLoader; EvBuildNetworks; EvDINOLoss; EvOptimizer]
               ++ (if speed_use_fp16 cfg then [EvGradScaler] else []) |}
    | Raised e w1 => Raised e w1
    end.
Proof.
  intros Hlt. unfold main. unfold mbind at 1, M_bind at 1.
  destruct (main_prepare cfg0 p from_rank0 w) as [[cfg d] w1|e w1] eqn:Hprep; [|done].
  destruct (main_prepare_keeps_schedule _ _ _ _ _ _ _ Hprep) as [He Hw].
  unfold mbind at 1, M_bind at 1. rewrite main_build_eq.
  unfold mbind at 1, M_bind at 1. unfold main_schedules.
  unfold mbind at 1, M_bind at 1. rewrite He, Hw.
  destruct (optim_warmup_epochs cfg0 <=? optim_epochs cfg0) eqn:Hle;
    [apply Z.leb_le in Hle; lia|].
  by run.
Qed.

Lemma warmup_longer_than_training_fails_after_setup_witness :
  optim_epochs Examples.cfg_short < optim_warmup_epochs Examples.cfg_short
  /\ main (Examples.collaborators None) Examples.cfg_short Examples.single ""
        Examples.empty_world =
      match main_prepare Examples.cfg_short Examples.single "" Examples.empty_world with
      | Done (cfg, d) w1 =>
          Raised (AssertionError (optim_epochs Examples.cfg_short)
                    (optim_warmup_epochs Examples.cfg_short))
            {| fs := fs w1;
               trace := trace w1
                 ++ (if is_main_process Examples.single
                     then [EvWriteConfig (train_output_dir cfg)] else [])
                 ++ (if is_main_process Examples.single && truthy (tune_tune_every cfg)
                     then [EvPrepareTuningData] else [])
                 ++ [EvMakeDataset; EvDataLoader; EvBuildNetworks; EvDINOLoss; EvOptimizer]
                 ++ (if speed_use_fp16 cfg then [EvGradScaler] else []) |}
      | Raised e w1 => Raised e w1
      end.
Proof.
  split; [reflexivity|].
  apply (warmup_longer_than_training_fails_after_setup (Examples.collaborators None)
           Examples.cfg_short Examples.single "" Examples.empty_world).
  reflexivity.
Defined.

(** C3, as stated, fails: with 5 epochs and 10 warm-up epochs the assertion
    error is raised when the data set, its loader, the networks, the loss and
    the optimizer have already been created (and the run directory made). *)
Lemma assertion_is_not_before_allocation :
  let o := main (Examples.collaborators None) Examples.cfg_short Examples.single ""
             Examples.empty_world in
  optim_epochs Examples.cfg_short < optim_warmup_epochs Examples.cfg_short
  /\ raised o = Some (AssertionError 5 10)
  /\ trace (final o) =
       [ EvGenerateRunId "2024-05-01_09_30"; EvFixRandomSeeds;
         EvMkdir Examples.run_dir; EvMkdir (Examples.run_dir ++ ["snapshots"]);
         EvWriteConfig "output/2024-05-01_09_30";
         EvMakeDataset; EvDataLoader; EvBuildNetworks; EvDINOLoss; EvOptimizer ].
Proof. vm_compute. auto. Qed.

(** ** The periodic snapshot *)

Example format_03_pads : format_03 7 = "007"%string /\ format_03 42 = "042"%string.
Proof. split; reflexivity. Qed.

Example format_03_wide : format_03 1234 = "1234"%string.
Proof. reflexivity. Qed.

Example epoch_save_path_7 :
  epoch_save_path Examples.dirs0 7 = Examples.run_dir ++ ["snapshots"; "epoch_007.pt"].
Proof. reflexivity. Qed.


Lemma save_snapshot_eq cfg p d e snapshot w :
  save_snapshot cfg p d e snapshot w =
    Done tt
      (if is_main_process p && (truthy (train_save_every cfg)
            && (e mod train_save_every cfg =? 0)
            && negb (is_file (fs w) (epoch_save_path d e)))
       then {| fs := <[epoch_save_path d e := File (Pickle snapshot)]> (fs w);
               trace := trace w ++ [EvTorchSave (epoch_save_path d e)] |}
       else w).
Proof.
  unfold save_snapshot, torch_save.
  destruct (is_main_process p); run; [|done].
  by destruct (truthy _ && _ && _); run.
Qed.

Lemma app_singleton_neq {A} (l : list A) (x : A) : l <> l ++ [x].
Proof.
  intros H. apply (f_equal length) in H. rewrite length_app in H. cbn in H. lia.
Qed.

(** The save step on its own (lines 423-431), once it is reached: the
    coordinating process writes the numbered snapshot [epoch_e.pt] if and
    only if [save_every] is set, [e] is a multiple of it and no file of that
    name exists; no other process writes it.  When the file exists it is left
    as it is, and running the step again (with whatever snapshot) changes
    nothing. *)
Lemma save_step_writes_iff_due_and_absent
    (cfg : Cfg) (p : Proc) (d : Dirs) (e : Z)
    (snapshot snapshot' : Snapshot) (w : World) :
  let path := epoch_save_path d e in
  let w' := final (save_snapshot cfg p d e snapshot w) in
  save_snapshot cfg p d e snapshot w = Done tt w'
  /\ ((trace w' = trace w ++ [EvTorchSave path]
         /\ fs w' = <[path := File (Pickle snapshot)]> (fs w))
      \/ w' = w)
  /\ (trace w' = trace w ++ [EvTorchSave path] <->
        is_main_process p = true
        /\ train_save_every cfg <> 0
        /\ (train_save_every cfg | e)
        /\ is_file (fs w) path = false)
  /\ (is_file (fs w) path = true -> w' = w)
  /\ save_snapshot cfg p d e snapshot' w' = Done tt w'.
Proof.
  cbv zeta. rewrite !save_snapshot_eq. cbn [final].
  set (path := epoch_save_path d e).
  assert (Hdue : is_main_process p && (truthy (train_save_every cfg)
            && (e mod train_save_every cfg =? 0) && negb (is_file (fs w) path)) = true <->
          is_main_process p = true /\ train_save_every cfg <> 0
          /\ (train_save_every cfg | e) /\ is_file (fs w) path = false).
  { unfold truthy. rewrite !andb_true_iff, !negb_true_iff, Z.eqb_neq, Z.eqb_eq.
    split.
    - intros (? & (? & ?) & ?). repeat split; auto. by apply Z.mod_divide.
    - intros (? & ? & ? & ?). repeat split; auto. by apply Z.mod_divide. }
  destruct (is_main_process p && _) eqn:Hd.
  - cbn [fs trace]. split; [done|]. split; [by left|].
    split; [by rewrite <- Hdue|].
    split.
    + intros Hf. destruct Hdue as [(_ & _ & _ & Hf') _]; [done|]. congruence.
    + assert (Hf' : is_file (<[path := File (Pickle snapshot)]> (fs w)) path = true).
      { unfold is_file. by rewrite lookup_insert_eq. }
      rewrite Hf', !andb_false_r. done.
  - split; [done|]. split; [by right|].
    split.
    + split.
      * intros H. by apply app_singleton_neq in H.
      * intros H. apply Hdue in H. done.
    + split; [done|]. by rewrite Hd.
Qed.

(** ** One epoch *)

Section Loop.

Variable X : Collaborators.
Variables (cfg : Cfg) (p : Proc) (d : Dirs).

Lemma trained_epochs_app a b :
  trained_epochs (a ++ b) = trained_epochs a ++ trained_epochs b.
Proof. apply omap_app. Qed.

Lemma epoch_train_eq epoch st w :
  epoch_train X cfg p epoch st w =
    let model := (train_one_epoch X (ls_model st) epoch).1 in
    let train_stats := (train_one_epoch X (ls_model st) epoch).2 in
    let snapshot := make_snapshot epoch model in
    let tune_results :=
      if tune_due cfg p epoch then Some (tune_one_epoch X epoch model) else None in
    let called :=
      EarlyStoppingDINO_call X (ls_early_stopping st) epoch tune_results snapshot (fs w) in
    if is_main_process p then
      Done ({| ls_model := model; ls_early_stopping := called.1;
               ls_stop := if early_stop X called.1 && tune_enable cfg
                          then true else ls_stop st |},
            train_stats, snapshot)
           {| fs := called.2; trace := trace w ++ train_events cfg p epoch |}
    else
      Done ({| ls_model := model; ls_early_stopping := ls_early_stopping st;
               ls_stop := ls_stop st |}, train_stats, snapshot)
           {| fs := fs w; trace := trace w ++ train_events cfg p epoch |}.
Proof.
  unfold epoch_train, train_events, tune_due.
  destruct (train_one_epoch X (ls_model st) epoch) as [model stats]. cbn [fst snd].
  destruct (distributed p), (truthy (tune_tune_every cfg) && _), (is_main_process p);
    run; repeat (destruct (EarlyStoppingDINO_call _ _ _ _ _ _) as [es fs1]; run);
    rewrite <- ?app_assoc; done.
Qed.

Lemma epoch_bookkeeping_total epoch train_stats snapshot w :
  exists w', epoch_bookkeeping cfg p d epoch train_stats snapshot w = Done tt w'
             /\ trace w' = trace w ++ bookkeeping_events cfg p d epoch (fs w).
Proof.
  unfold epoch_bookkeeping, bookkeeping_events, save_due, write_log, append_line.
  unfold mbind at 1, M_bind at 1. rewrite save_snapshot_eq.
  destruct (is_main_process p && (_ && _)), (is_main_process p),
    (wandb_enable cfg), (distributed p); run;
    eexists; (split; [reflexivity|]); cbn; rewrite <- ?app_assoc; cbn;
    rewrite ?app_nil_r; done.
Qed.

Lemma trained_epochs_train_events epoch :
  trained_epochs (train_events cfg p epoch) = [epoch].
Proof.
  unfold train_events.
  by destruct (distributed p), (tune_due cfg p epoch), (is_main_process p).
Qed.

Lemma trained_epochs_bookkeeping_events epoch fs0 :
  trained_epochs (bookkeeping_events cfg p d epoch fs0) = [].
Proof.
  unfold bookkeeping_events.
  by destruct (save_due cfg p d epoch fs0), (is_main_process p), (wandb_enable cfg),
       (distributed p).
Qed.

Lemma no_stop_in_train_events epoch :
  existsb is_stopping_early (train_events cfg p epoch) = false.
Proof.
  unfold train_events.
  by destruct (distributed p), (tune_due cfg p epoch), (is_main_process p).
Qed.

Lemma no_stop_in_bookkeeping_events epoch fs0 :
  existsb is_stopping_early (bookkeeping_events cfg p d epoch fs0) = false.
Proof.
  unfold bookkeeping_events.
  by destruct (save_due cfg p d epoch fs0), (is_main_process p), (wandb_enable cfg),
       (distributed p).
Qed.

Lemma epoch_train_total epoch st w :
  exists st1 train_stats snapshot w1,
    epoch_train X cfg p epoch st w = Done (st1, train_stats, snapshot) w1
    /\ trace w1 = trace w ++ train_events cfg p epoch
    /\ (tune_enable cfg = false -> ls_stop st1 = ls_stop st).
Proof.
  rewrite epoch_train_eq. cbv zeta.
  destruct (is_main_process p); do 4 eexists; (split; [reflexivity|]); cbn;
    (split; [done|]); intros Hen; [|done].
  by rewrite Hen, andb_false_r.
Qed.

Lemma epoch_body_eq epoch st w :
  epoch_body X cfg p d epoch st w =
    match epoch_train X cfg p epoch st w with
    | Done (st1, train_stats, snapshot) w1 =>
        if ls_stop st1
        then Done (st1, true)
               {| fs := fs w1; trace := trace w1 ++ [EvStoppingEarly epoch] |}
        else match epoch_bookkeeping cfg p d epoch train_stats snapshot w1 with
             | Done _ w2 => Done (st1, false) w2
             | Raised e w2 => Raised e w2
             end
    | Raised e w1 => Raised e w1
    end.
Proof.
  unfold epoch_body. unfold mbind at 1, M_bind at 1.
  destruct (epoch_train X cfg p epoch st w) as [[[st1 stats] snap] w1|e w1]; [|done].
  destruct (ls_stop st1); [done|]. unfold mbind, M_bind.
  by destruct (epoch_bookkeeping _ _ _ _ _ _ _).
Qed.

(** One turn of the loop always comes to its end; it leaves the loop exactly
    when the flag [stop] is up. *)
Lemma epoch_body_total epoch st w :
  exists st' w' new,
    epoch_body X cfg p d epoch st w = Done (st', ls_stop st') w'
    /\ trace w' = trace w ++ new
    /\ trained_epochs new = [epoch]
    /\ (ls_stop st' = false -> existsb is_stopping_early new = false)
    /\ (tune_enable cfg = false -> ls_stop st' = ls_stop st).
Proof.
  rewrite epoch_body_eq.
  destruct (epoch_train_total epoch st w) as (st1 & stats & snap & w1 & -> & Htr & Hen).
  destruct (ls_stop st1) eqn:Hstop.
  - exists st1, {| fs := fs w1; trace := trace w1 ++ [EvStoppingEarly epoch] |},
      (train_events cfg p epoch ++ [EvStoppingEarly epoch]).
    rewrite Hstop. cbn. rewrite Htr, <- app_assoc.
    repeat split; [|done|done].
    by rewrite trained_epochs_app, trained_epochs_train_events.
  - destruct (epoch_bookkeeping_total epoch stats snap w1) as (w2 & -> & Htr2).
    exists st1, w2, (train_events cfg p epoch ++ bookkeeping_events cfg p d epoch (fs w1)).
    rewrite Hstop, Htr2, Htr, <- app_assoc. repeat split; [| |done].
    + by rewrite trained_epochs_app, trained_epochs_train_events,
        trained_epochs_bookkeeping_events.
    + intros _. by rewrite existsb_app, no_stop_in_train_events,
        no_stop_in_bookkeeping_events.
Qed.

(** The loop always comes to its end, and trains an initial stretch of the
    epochs it was given, starting with the first. *)
Lemma epochs_loop_total epochs st w :
  exists st' w' new,
    epochs_loop X cfg p d epochs st w = Done st' w'
    /\ trace w' = trace w ++ new
    /\ trained_epochs new `prefix_of` epochs
    /\ (forall e rest, epochs = e :: rest -> exists l, trained_epochs new = e :: l).
Proof.
  revert st w. induction epochs as [|e rest IH]; intros st w.
  - exists st, w, []. run. rewrite app_nil_r. repeat split; [done|]. intros; done.
  - cbn [epochs_loop]. unfold mbind at 1, M_bind at 1.
    destruct (epoch_body_total e st w) as (st1 & w1 & new1 & -> & Htr1 & Het1 & _ & _).
    destruct (ls_stop st1).
    + exists st1, w1, new1. run. rewrite Het1. repeat split; [done| |].
      * by apply prefix_cons, prefix_nil.
      * intros e' rest' [= <- <-]. by exists [].
    + destruct (IH st1 w1) as (st2 & w2 & new2 & -> & Htr2 & Hpre & _).
      exists st2, w2, (new1 ++ new2). rewrite Htr2, Htr1, <- app_assoc.
      rewrite trained_epochs_app, Het1. repeat split.
      * by apply prefix_cons.
      * intros e' rest' [= <- <-]. by eexists.
Qed.

Lemma epochs_loop_without_tuning epochs st w :
  tune_enable cfg = false -> ls_stop st = false ->
  exists st' w' new,
    epochs_loop X cfg p d epochs st w = Done st' w'
    /\ ls_stop st' = false
    /\ trace w' = trace w ++ new
    /\ trained_epochs new = epochs
    /\ existsb is_stopping_early new = false.
Proof.
  intros Hen. revert st w. induction epochs as [|e rest IH]; intros st w Hst.
  - exists st, w, []. run. by rewrite app_nil_r.
  - cbn [epochs_loop]. unfold mbind at 1, M_bind at 1.
    destruct (epoch_body_total e st w) as (st1 & w1 & new1 & -> & Htr1 & Het1 & Hns & Hkeep).
    specialize (Hkeep Hen). rewrite Hst in Hkeep. rewrite Hkeep.
    destruct (IH st1 w1 Hkeep) as (st2 & w2 & new2 & -> & Hst2 & Htr2 & Het2 & Hns2).
    exists st2, w2, (new1 ++ new2). rewrite Htr2, Htr1, <- app_assoc.
    rewrite trained_epochs_app, Het1, Het2, existsb_app, (Hns Hkeep), Hns2.
    done.
Qed.

End Loop.

(** ** The numbered snapshot within one turn of the loop *)








(** C8. With [cfg.tune.enable] false the training never ends early, whatever
    the early-stopping controller does and whatever its flag says: the
    variable [stop] stays false, the message of an early stop is never
    issued, and the loop trains every epoch from [epochs_run] to the
    configured number of epochs, in order. *)
Theorem no_early_stop_when_tuning_disabled
    (X : Collaborators) (cfg : Cfg) (p : Proc) (d : Dirs)
    (epochs_run : Z) (m : Model) (w : World) :
  tune_enable cfg = false ->
  exists st w' new,
    main_train X cfg p d epochs_run m w = Done st w'
    /\ ls_stop st = false
    /\ trace w' = trace w ++ new
    /\ trained_epochs new = range epochs_run (optim_epochs cfg)
    /\ existsb is_stopping_early new = false.
Proof.
  intros Hen. unfold main_train. unfold mbind at 1, M_bind at 1.
  destruct (epochs_loop_without_tuning X cfg p d
              (range epochs_run (optim_epochs cfg))
              {| ls_model := m;
                 ls_early_stopping := EarlyStoppingDINO_init X cfg (snapshot_dir d);
                 ls_stop := false |} w Hen eq_refl)
    as (st & w1 & new & -> & Hst & Htr & Het & Hns).
  destruct (distributed p); run.
  - exists st, {| fs := fs w1; trace := trace w1 ++ [EvDestroyProcessGroup] |},
      (new ++ [EvDestroyProcessGroup]).
    cbn. rewrite Htr, <- app_assoc, trained_epochs_app, Het, existsb_app, Hns.
    cbn. by rewrite app_nil_r.
  - by exists st, w1, new.
Qed.

(** A controller whose flag is up from the first epoch on does not shorten a
    run of five epochs when tuning is disabled. *)
Lemma no_early_stop_when_tuning_disabled_witness :
  tune_enable Examples.cfg_no_tune = false
  /\ exists st w' new,
       main_train (Examples.collaborators (Some 0)) Examples.cfg_no_tune
         Examples.single Examples.dirs0 0 Examples.model0 Examples.empty_world
         = Done st w'
       /\ ls_stop st = false
       /\ trace w' = trace Examples.empty_world ++ new
       /\ trained_epochs new = range 0 (optim_epochs Examples.cfg_no_tune)
       /\ existsb is_stopping_early new = false.
Proof.
  split; [reflexivity|].
  apply (no_early_stop_when_tuning_disabled (Examples.collaborators (Some 0))
           Examples.cfg_no_tune Examples.single Examples.dirs0 0 Examples.model0
           Examples.empty_world).
  reflexivity.
Defined.

(** C2, as the code has it.  When, on the coordinating process and with
    tuning enabled, the early-stopping controller raises its flag in its call
    of epoch [e], the loop ends right there: the training of epoch [e] (and
    its tuning, when due) is complete and the controller has been called with
    the snapshot of epoch [e], but neither the numbered snapshot of the loop
    nor the line of [log.txt] for epoch [e] is written, and no later epoch is
    run.  The file system is left as the controller's call left it. *)
Theorem early_stop_ends_loop_after_controller_call
    (X : Collaborators) (cfg : Cfg) (p : Proc) (d : Dirs)
    (e : Z) (rest : list Z) (st : LoopState X) (w : World) :
  let model := (train_one_epoch X (ls_model st) e).1 in
  let snapshot := make_snapshot e model in
  let tune_results :=
    if tune_due cfg p e then Some (tune_one_epoch X e model) else None in
  let called :=
    EarlyStoppingDINO_call X (ls_early_stopping st) e tune_results snapshot (fs w) in
  let new := train_events cfg p e ++ [EvStoppingEarly e] in
  is_main_process p = true ->
  tune_enable cfg = true ->
  early_stop X called.1 = true ->
  epochs_loop X cfg p d (e :: rest) st w =
    Done {| ls_model := model; ls_early_stopping := called.1; ls_stop := true |}
         {| fs := called.2; trace := trace w ++ new |}
  /\ trained_epochs new = [e]
  /\ (EvEarlyStopping e ∈ new)
  /\ (EvLogLine e ∉ new)
  /\ (forall q, EvTorchSave q ∉ new).
Proof.
  cbv zeta. intros Hmain Hen Hflag.
  split; [|split; [|split; [|split]]].
  - cbn [epochs_loop]. unfold mbind at 1, M_bind at 1.
    rewrite epoch_body_eq, epoch_train_eq. cbv zeta. rewrite Hmain.
    cbn [ls_stop]. rewrite Hflag, Hen. cbn. by rewrite <- app_assoc.
  - by rewrite trained_epochs_app, trained_epochs_train_events.
  - unfold train_events. rewrite Hmain.
    destruct (distributed p), (tune_due cfg p e); in_list.
  - unfold train_events.
    destruct (distributed p), (tune_due cfg p e), (is_main_process p); not_in_list.
  - intros q. unfold train_events.
    destruct (distributed p), (tune_due cfg p e), (is_main_process p); not_in_list.
Qed.

Lemma early_stop_ends_loop_after_controller_call_witness :
  let X := Examples.collaborators (Some 0) in
  let cfg := Examples.cfg0 in
  let p := Examples.single in
  let d := Examples.dirs0 in
  let st : LoopState X :=
    {| ls_model := Examples.model0;
       ls_early_stopping := EarlyStoppingDINO_init X cfg (snapshot_dir d);
       ls_stop := false |} in
  let w := Examples.empty_world in
  let model := (train_one_epoch X (ls_model st) 0).1 in
  let snapshot := make_snapshot 0 model in
  let tune_results :=
    if tune_due cfg p 0 then Some (tune_one_epoch X 0 model) else None in
  let called :=
    EarlyStoppingDINO_call X (ls_early_stopping st) 0 tune_results snapshot (fs w) in
  let new := train_events cfg p 0 ++ [EvStoppingEarly 0] in
  is_main_process p = true
  /\ tune_enable cfg = true
  /\ early_stop X called.1 = true
  /\ epochs_loop X cfg p d [0; 1; 2; 3; 4] st w =
       Done {| ls_model := model; ls_early_stopping := called.1; ls_stop := true |}
            {| fs := called.2; trace := trace w ++ new |}
  /\ trained_epochs new = [0]
  /\ (EvEarlyStopping 0 ∈ new)
  /\ (EvLogLine 0 ∉ new)
  /\ (forall q, EvTorchSave q ∉ new).
Proof.
  cbv zeta.
  split; [reflexivity|]. split; [reflexivity|]. split; [reflexivity|].
  apply (early_stop_ends_loop_after_controller_call (Examples.collaborators (Some 0))
           Examples.cfg0 Examples.single Examples.dirs0 0 [1; 2; 3; 4]
           {| ls_model := Examples.model0;
              ls_early_stopping :=
                EarlyStoppingDINO_init (Examples.collaborators (Some 0)) Examples.cfg0
                  (snapshot_dir Examples.dirs0);
              ls_stop := false |}
           Examples.empty_world); reflexivity.
Defined.

(** C2, as stated, fails.  A run of five epochs with a snapshot due at every
    epoch, whose controller raises its flag at epoch 1: epoch 0 gets its
    numbered snapshot and its line of [log.txt]; epoch 1 is trained and the
    controller is called, then the loop ends.  For epoch 1 no numbered
    snapshot is written, although one was due and none exists, and
    [log.txt] has no line. *)
Lemma early_stop_skips_numbered_snapshot_and_log_line :
  let o := main (Examples.collaborators (Some 1)) Examples.cfg0 Examples.single ""
             Examples.empty_world in
  let epoch_001 := Examples.run_dir ++ ["snapshots"; "epoch_001.pt"] in
  raised o = None
  /\ drop 13 (trace (final o)) =
       [ EvTrainOneEpoch 0; EvEarlyStopping 0;
         EvTorchSave (Examples.run_dir ++ ["snapshots"; "epoch_000.pt"]);
         EvLogLine 0;
         EvTrainOneEpoch 1; EvEarlyStopping 1; EvStoppingEarly 1 ]
  /\ epoch_save_path Examples.dirs0 1 = epoch_001
  /\ save_due Examples.cfg0 Examples.single Examples.dirs0 1 (fs (final o)) = true
  /\ fs (final o) !! epoch_001 = None
  /\ fs (final o) !! (Examples.run_dir ++ ["log.txt"]) =
       Some (File (JsonLines [{| log_train := [("loss"%string, 1%Q)]; log_epoch := 0 |}])).
Proof. vm_compute. auto 10. Qed.

(** ** Restart from the rolling snapshot *)

(** Restoring from [latest.pt] makes [epochs_run] the epoch stored in the
    snapshot, and the loop starts with that very epoch. *)
Lemma restore_from_latest_starts_at_stored_epoch
    (X : Collaborators) (cfg : Cfg) (p : Proc) (d : Dirs) (m : Model)
    (s : Snapshot) (w : World) :
  distributed p = true ->
  fp16_scaler m = None ->
  fs w !! path_join (snapshot_dir d) "latest.pt" = Some (File (Pickle s)) ->
  snap_epoch s < optim_epochs cfg ->
  exists m' w1 st w2 new l,
    main_restore X cfg p d m w = Done (snap_epoch s, m') w1
    /\ main_train X cfg p d (snap_epoch s) m' w1 = Done st w2
    /\ trace w2 = trace w1 ++ new
    /\ trained_epochs new = snap_epoch s :: l.
Proof.
  intros Hd Hfp Hs Hlt.
  unfold main_restore. rewrite Hd. run. unfold path_exists.
  rewrite Hs. unfold torch_load, load_snapshot. run. rewrite Hs, Hfp. run.
  eexists _, _. 
  unfold main_train. unfold mbind at 1, M_bind at 1.
  match goal with
  | |- context [epochs_loop X cfg p d ?es ?st ?w0] =>
      destruct (epochs_loop_total X cfg p d es st w0)
        as (st' & w' & new & Hloop & Htr & _ & Hfirst)
  end.
  rewrite Hloop, Hd. run.
  assert (Hrange : exists rest, range (snap_epoch s) (optim_epochs cfg)
                                = snap_epoch s :: rest).
  { unfold range. rewrite seqZ_cons by lia. by eexists. }
  destruct Hrange as [rest Hrange].
  destruct (Hfirst _ _ Hrange) as [l Hl].
  exists st', {| fs := fs w'; trace := trace w' ++ [EvDestroyProcessGroup] |},
    (new ++ [EvDestroyProcessGroup]), (l ++ []).
  split; [reflexivity|]. split; [reflexivity|]. cbn [trace].
  split; [by rewrite Htr, <- app_assoc|].
  rewrite trained_epochs_app, Hl. done.
Qed.

(** C1, at a failing input.  A job of five epochs on two devices was
    interrupted after epoch 2; its rolling snapshot stores the mapping built
    at the end of that epoch, with ["epoch": 2].  Restarted, the coordinating
    process restores the snapshot and trains the epochs 2, 3 and 4: the
    completed epoch 2 is run a second time, where resuming at the next epoch
    would train 3 and 4 only. *)
Theorem restart_from_latest_repeats_the_stored_epoch :
  let o := main (Examples.collaborators None) Examples.cfg_resume Examples.rank0
             (now_strftime Examples.rank0) Examples.interrupted_world in
  fs Examples.interrupted_world !! (Examples.run_dir ++ ["snapshots"; "latest.pt"])
    = Some (File (Pickle (make_snapshot 2 Examples.model0)))
  /\ snap_epoch (make_snapshot 2 Examples.model0) = 2
  /\ raised o = None
  /\ EvTorchLoad (Examples.run_dir ++ ["snapshots"; "latest.pt"]) ∈ trace (final o)
  /\ trained_epochs (trace (final o)) = [2; 3; 4].
Proof.
  cbv zeta. split; [vm_compute; reflexivity|]. split; [reflexivity|].
  split; [vm_compute; reflexivity|]. split; [|vm_compute; reflexivity].
  apply list_elem_of_In. vm_compute.
  repeat (first [left; reflexivity | right]).
Qed.

End PatchSpec.

(* ===================================================================== *)
(** * Part V-b: further properties of the training driver                 *)
(* ===================================================================== *)

Module PatchExtra.
Import Patch Observed PatchSpec.

(** ** Processes other than the coordinating one *)

Lemma follower_is_distributed p : is_main_process p = false -> distributed p = true.
Proof.
  unfold is_main_process, get_rank. by destruct (distributed p).
Qed.

Lemma fs_kept_ret {A} (a : A) : fs_kept (mret a : M A).
Proof. by intros w. Qed.

Lemma fs_kept_raise {A} e : fs_kept (raise e : M A).
Proof. by intros w. Qed.

Lemma fs_kept_emit e : fs_kept (emit e).
Proof. by intros w. Qed.

Lemma fs_kept_get_fs : fs_kept get_fs.
Proof. by intros w. Qed.

Lemma fs_kept_bind {A B} (c : M A) (f : A -> M B) :
  fs_kept c -> (forall a, fs_kept (f a)) -> fs_kept (c ≫= f).
Proof.
  intros Hc Hf w. unfold mbind, M_bind. specialize (Hc w).
  destruct (c w) as [a w1|e w1]; cbn in *; [|done].
  by rewrite Hf.
Qed.

Lemma fs_kept_when b c : fs_kept c -> fs_kept (when b c).
Proof. intros Hc. destruct b; [done|apply fs_kept_ret]. Qed.

Ltac kept :=
  repeat first
    [ apply fs_kept_ret | apply fs_kept_raise | apply fs_kept_emit
    | apply fs_kept_get_fs
    | apply fs_kept_when
    | apply fs_kept_bind; [|intros ?] ].

(** Restoring reads the file system and never writes it, on any process. *)
Lemma main_restore_keeps_fs X cfg p d m : fs_kept (main_restore X cfg p d m).
Proof.
  unfold main_restore.
  destruct (distributed p).
  - apply fs_kept_bind; [kept|]. intros fs0.
    destruct (path_exists fs0 _); [|kept].
    apply fs_kept_bind.
    + unfold torch_load. kept. by destruct (_ !! _) as [[|[]]|]; kept.
    + intros s. apply fs_kept_bind; [|intros; kept].
      unfold load_snapshot. apply fs_kept_bind; [|intros; kept].
      destruct (fp16_scaler m); [|kept]. destruct (snap_fp16_scaler s); kept.
  - destruct (train_resume cfg); [|kept].
    kept. destruct (resume_from_checkpoint X _ _ _) as [[? ?]|]; kept.
Qed.

Lemma epoch_body_follower X cfg p d epoch (st : LoopState X) w :
  is_main_process p = false ->
  ls_stop st = false ->
  epoch_body X cfg p d epoch st w =
    Done ({| ls_model := (train_one_epoch X (ls_model st) epoch).1;
             ls_early_stopping := ls_early_stopping st;
             ls_stop := false |}, false)
         {| fs := fs w; trace := trace w ++ follower_events epoch |}.
Proof.
  intros Hmain Hstop. pose proof (follower_is_distributed p Hmain) as Hd.
  rewrite epoch_body_eq, epoch_train_eq. cbv zeta. rewrite Hmain. cbn [ls_stop].
  rewrite Hstop.
  unfold epoch_bookkeeping, save_snapshot, write_log, train_events, tune_due.
  rewrite Hmain, Hd, andb_false_r. run. rewrite <- !app_assoc. done.
Qed.

Lemma epochs_loop_follower X cfg p d epochs (st : LoopState X) w :
  is_main_process p = false ->
  ls_stop st = false ->
  epochs_loop X cfg p d epochs st w =
    Done {| ls_model := trained X epochs (ls_model st);
            ls_early_stopping := ls_early_stopping st;
            ls_stop := false |}
         {| fs := fs w; trace := trace w ++ flat_map follower_events epochs |}.
Proof.
  intros Hmain. revert st w. induction epochs as [|e rest IH]; intros st w Hstop.
  - cbn. unfold mret, M_ret. rewrite app_nil_r. destruct st, w; cbn in *. by subst.
  - cbn [epochs_loop]. unfold mbind at 1, M_bind at 1.
    rewrite epoch_body_follower by done. rewrite IH by done.
    cbn. by rewrite <- !app_assoc.
Qed.





Lemma main_train_follower_keeps_fs X cfg p d epochs_run m :
  is_main_process p = false -> fs_kept (main_train X cfg p d epochs_run m).
Proof.
  intros Hmain w. pose proof (follower_is_distributed p Hmain) as Hd.
  unfold main_train. unfold mbind at 1, M_bind at 1.
  rewrite epochs_loop_follower by done. rewrite Hd. by run.
Qed.

Lemma main_startup_keeps_fs cfg p from_rank0 : fs_kept (main_startup cfg p from_rank0).
Proof. intros w. by rewrite main_startup_eq. Qed.

Lemma main_build_keeps_fs X cfg p : fs_kept (main_build X cfg p).
Proof. intros w. by rewrite main_build_eq. Qed.

Lemma main_schedules_keeps_fs X cfg p : fs_kept (main_schedules X cfg p).
Proof.
  unfold main_schedules. apply fs_kept_bind; [|intros; kept].
  destruct (_ <=? _); kept.
Qed.

(** X10. A process that is not the coordinating one never changes the file
    system: from its start to its end, and however it ends, [main] leaves
    every directory and file as it found it (such a process only reads the
    rolling snapshot). *)
Theorem followers_never_write_the_file_system
    (X : Collaborators) (cfg : Cfg) (p : Proc) (from_rank0 : string) (w : World) :
  is_main_process p = false ->
  fs (final (main X cfg p from_rank0 w)) = fs w.
Proof.
  intros Hmain. revert w. change (fs_kept (main X cfg p from_rank0)).
  unfold main, main_prepare.
  apply fs_kept_bind.
  - apply fs_kept_bind; [apply main_startup_keeps_fs|]. intros [cfg' d].
    apply fs_kept_bind; [|intros; kept].
    unfold prepare_dirs. rewrite Hmain, andb_false_r. kept.
  - intros [cfg' d].
    apply fs_kept_bind; [apply main_build_keeps_fs|]. intros m.
    apply fs_kept_bind; [apply main_schedules_keeps_fs|]. intros _.
    apply fs_kept_bind; [apply main_restore_keeps_fs|]. intros [epochs_run m'].
    by apply main_train_follower_keeps_fs.
Qed.

Lemma followers_never_write_the_file_system_witness :
  is_main_process Examples.rank1 = false
  /\ fs (final (main (Examples.collaborators (Some 1)) Examples.cfg0 Examples.rank1
                  "2024-05-01_09_30" Examples.old_world))
     = fs Examples.old_world.
Proof.
  split; [reflexivity|].
  apply (followers_never_write_the_file_system (Examples.collaborators (Some 1))
           Examples.cfg0 Examples.rank1 "2024-05-01_09_30" Examples.old_world).
  reflexivity.
Defined.



(** ** Restoring *)

(** X12. Restoring from the rolling snapshot, in full: the epoch counter
    becomes the stored epoch and the four state dictionaries are taken from
    the snapshot.  A run with mixed precision needs the scaler in the
    snapshot and ends with [KeyError] if it is missing; a run without mixed
    precision ignores a scaler that the snapshot has. *)
Theorem restore_from_latest_and_the_scaler
    (X : Collaborators) (cfg : Cfg) (p : Proc) (d : Dirs) (m : Model)
    (s : Snapshot) (w : World) :
  distributed p = true ->
  fs w !! path_join (snapshot_dir d) "latest.pt" = Some (File (Pickle s)) ->
  let w1 := {| fs := fs w;
               trace := trace w ++ [EvTorchLoad (path_join (snapshot_dir d) "latest.pt")] |} in
  let restored scaler :=
    {| student := snap_student s; teacher := snap_teacher s;
       optimizer := snap_optimizer s; dino_loss := snap_dino_loss s;
       fp16_scaler := scaler |} in
  main_restore X cfg p d m w =
    match fp16_scaler m, snap_fp16_scaler s with
    | Some _, None => Raised (KeyError "fp16_scaler") w1
    | Some _, Some sd => Done (snap_epoch s, restored (Some sd)) w1
    | None, _ => Done (snap_epoch s, restored None) w1
    end.
Proof.
  intros Hd Hs. cbv zeta. unfold main_restore. rewrite Hd. run.
  unfold path_exists. rewrite Hs. unfold torch_load, load_snapshot. run.
  rewrite Hs. run.
  destruct (fp16_scaler m); [|done]. by destruct (snap_fp16_scaler s).
Qed.

Lemma restore_from_latest_and_the_scaler_witness :
  let latest := path_join (snapshot_dir Examples.dirs0) "latest.pt" in
  let s := make_snapshot 2 Examples.model0 in
  let m := {| student := ∅; teacher := ∅; optimizer := ∅; dino_loss := ∅;
              fp16_scaler := Some ∅ |} in
  distributed Examples.rank0 = true
  /\ fs Examples.interrupted_world !! latest = Some (File (Pickle s))
  /\ main_restore (Examples.collaborators None) Examples.cfg_resume Examples.rank0
        Examples.dirs0 m Examples.interrupted_world =
      match fp16_scaler m, snap_fp16_scaler s with
      | Some _, None =>
          Raised (KeyError "fp16_scaler")
            {| fs := fs Examples.interrupted_world;
               trace := trace Examples.interrupted_world ++ [EvTorchLoad latest] |}
      | Some _, Some sd =>
          Done (snap_epoch s,
                {| student := snap_student s; teacher := snap_teacher s;
                   optimizer := snap_optimizer s; dino_loss := snap_dino_loss s;
                   fp16_scaler := Some sd |})
            {| fs := fs Examples.interrupted_world;
               trace := trace Examples.interrupted_world ++ [EvTorchLoad latest] |}
      | None, _ =>
          Done (snap_epoch s,
                {| student := snap_student s; teacher := snap_teacher s;
                   optimizer := snap_optimizer s; dino_loss := snap_dino_loss s;
                   fp16_scaler := None |})
            {| fs := fs Examples.interrupted_world;
               trace := trace Examples.interrupted_world ++ [EvTorchLoad latest] |}
      end.
Proof.
  cbv zeta. split; [reflexivity|]. split; [vm_compute; reflexivity|].
  apply (restore_from_latest_and_the_scaler (Examples.collaborators None)
           Examples.cfg_resume Examples.rank0 Examples.dirs0
           {| student := ∅; teacher := ∅; optimizer := ∅; dino_loss := ∅;
              fp16_scaler := Some ∅ |}
           (make_snapshot 2 Examples.model0) Examples.interrupted_world).
  - reflexivity.
  - vm_compute; reflexivity.
Defined.

(** X13. Round trip through the rolling snapshot.  Saving the snapshot of
    epoch [e] with state [m] as [latest.pt] and then restoring, on a process
    of a multi-process job whose objects were built with the same setting of
    mixed precision, gives back the state [m] exactly; the counter
    [epochs_run] becomes [e] itself. *)
Theorem save_then_restore_gives_back_the_state
    (X : Collaborators) (cfg : Cfg) (p : Proc) (d : Dirs) (e : Z)
    (m m0 : Model) (w : World) :
  distributed p = true ->
  (fp16_scaler m0 = None <-> fp16_scaler m = None) ->
  let latest := path_join (snapshot_dir d) "latest.pt" in
  (torch_save (make_snapshot e m) latest;; main_restore X cfg p d m0) w =
    Done (e, m)
         {| fs := <[latest := File (Pickle (make_snapshot e m))]> (fs w);
            trace := trace w ++ [EvTorchSave latest; EvTorchLoad latest] |}.
Proof.
  intros Hd Hfp. cbv zeta.
  set (latest := path_join (snapshot_dir d) "latest.pt").
  unfold torch_save. run. unfold main_restore. rewrite Hd. run.
  unfold path_exists. rewrite lookup_insert_eq. unfold torch_load, load_snapshot. run.
  rewrite lookup_insert_eq. run. rewrite <- !app_assoc. cbn.
  destruct m as [st te op dl [sc|]], m0 as [st0 te0 op0 dl0 [sc0|]]; cbn in *;
    try done; destruct Hfp as [H1 H2];
    first [ by specialize (H1 eq_refl) | by specialize (H2 eq_refl) ].
Qed.

Lemma save_then_restore_gives_back_the_state_witness :
  let latest := path_join (snapshot_dir Examples.dirs0) "latest.pt" in
  distributed Examples.rank0 = true
  /\ (fp16_scaler Examples.model0 = None <-> fp16_scaler Examples.model0 = None)
  /\ (torch_save (make_snapshot 3 Examples.model0) latest;;
      main_restore (Examples.collaborators None) Examples.cfg_resume Examples.rank0
        Examples.dirs0 Examples.model0) Examples.empty_world =
      Done (3, Examples.model0)
           {| fs := <[latest := File (Pickle (make_snapshot 3 Examples.model0))]>
                      (fs Examples.empty_world);
              trace := trace Examples.empty_world
                         ++ [EvTorchSave latest; EvTorchLoad latest] |}.
Proof.
  cbv zeta. split; [reflexivity|]. split; [done|].
  apply (save_then_restore_gives_back_the_state (Examples.collaborators None)
           Examples.cfg_resume Examples.rank0 Examples.dirs0 3
           Examples.model0 Examples.model0 Examples.empty_world); done.
Defined.

(** X14. A start without [cfg.train.resume] discards the rolling snapshot.
    When the run directory exists, the coordinating process removes it with
    everything below, [latest.pt] included, before anything is restored: the
    restore then finds no snapshot and the training starts at epoch 0 with
    the state as built. *)
Theorem start_without_resume_discards_the_rolling_snapshot
    (X : Collaborators) (cfg : Cfg) (p : Proc) (out : Path) (m : Model) (w : World) :
  train_resume cfg = false ->
  is_main_process p = true ->
  well_formed (fs w) = true ->
  fs w !! out = Some Dir ->
  exists w1,
    prepare_dirs cfg p (dirs_of out) w = Done tt w1
    /\ fs w1 !! path_join (snapshot_dir (dirs_of out)) "latest.pt" = None
    /\ main_restore X cfg p (dirs_of out) m w1 = Done (0, m) w1.
Proof.
  intros Hres Hmain Hwf Hout.
  pose proof (prepare_dirs_over_existing cfg p out w Hres Hmain Hwf Hout) as Heq.
  cbv zeta in Heq. eexists. split; [exact Heq|].
  change (path_join (snapshot_dir (dirs_of out)) "latest.pt")
    with ((out ++ ["snapshots"]) ++ ["latest.pt"]).
  set (latest := (out ++ ["snapshots"]) ++ ["latest.pt"]).
  assert (Hlen : length latest = S (S (length out))).
  { unfold latest. rewrite !length_app. cbn. lia. }
  assert (Hne : forall s, latest <> out ++ [s]).
  { intros s' H. apply (f_equal length) in H. rewrite Hlen, length_app in H.
    cbn in H. lia. }
  assert (Hne0 : latest <> out).
  { intros H. apply (f_equal length) in H. rewrite Hlen in H. lia. }
  assert (Hin : within out latest).
  { unfold latest, within. rewrite <- app_assoc. by apply prefix_app_r. }
  assert (Hnone : (if truthy (tune_tune_every cfg) && tune_knn_save_features cfg
                   then <[out ++ ["features"] := Dir]>
                          (<[out ++ ["snapshots"] := Dir]>
                             (<[out := Dir]> (remove_tree out (fs w))))
                   else <[out ++ ["snapshots"] := Dir]>
                          (<[out := Dir]> (remove_tree out (fs w)))) !! latest = None).
  { destruct (truthy _ && _).
    - rewrite !lookup_insert_ne by (try done; intros H; by apply (Hne _)).
      by apply remove_tree_within.
    - rewrite !lookup_insert_ne by (try done; intros H; by apply (Hne _)).
      by apply remove_tree_within. }
  split; [exact Hnone|].
  unfold main_restore.
  change (path_join (snapshot_dir (dirs_of out)) "latest.pt") with latest.
  destruct (distributed p).
  - run. unfold path_exists. cbn [fs]. rewrite Hnone. by run.
  - rewrite Hres. by run.
Qed.

Lemma start_without_resume_discards_the_rolling_snapshot_witness :
  let w := {| fs := <[Examples.run_dir ++ ["snapshots"; "latest.pt"] :=
                        File (Pickle (make_snapshot 2 Examples.model0))]>
                     Examples.old_run;
              trace := [] |} in
  train_resume Examples.cfg0 = false
  /\ is_main_process Examples.rank0 = true
  /\ well_formed (fs w) = true
  /\ fs w !! Examples.run_dir = Some Dir
  /\ exists w1,
       prepare_dirs Examples.cfg0 Examples.rank0 (dirs_of Examples.run_dir) w = Done tt w1
       /\ fs w1 !! path_join (snapshot_dir (dirs_of Examples.run_dir)) "latest.pt" = None
       /\ main_restore (Examples.collaborators None) Examples.cfg0 Examples.rank0
            (dirs_of Examples.run_dir) Examples.model0 w1 = Done (0, Examples.model0) w1.
Proof.
  cbv zeta.
  split; [reflexivity|]. split; [reflexivity|].
  split; [vm_compute; reflexivity|]. split; [vm_compute; reflexivity|].
  apply (start_without_resume_discards_the_rolling_snapshot
           (Examples.collaborators None) Examples.cfg0 Examples.rank0 Examples.run_dir
           Examples.model0).
  - reflexivity.
  - reflexivity.
  - vm_compute; reflexivity.
  - vm_compute; reflexivity.
Defined.

(** ** What the preparation of the directories leaves alone *)

Lemma make_dirs_keeps (ps : list Path) (w : World) (q : Path) (n : Node) :
  fs w !! q = Some n -> fs (final (make_dirs ps w)) !! q = Some n.
Proof.
  revert w. induction ps as [|a ps IH]; intros w Hq; [done|].
  cbn [make_dirs]. run.
  destruct (fs w !! a) as [[|c]|] eqn:Ha; run.
  - by apply IH.
  - done.
  - apply IH. cbn. destruct (decide (a = q)) as [->|Hne]; [congruence|].
    by rewrite lookup_insert_ne.
Qed.

Lemma mkdir_parents_keeps (a : Path) (exist_ok : bool) (w : World) (q : Path) (n : Node) :
  fs w !! q = Some n -> fs (final (mkdir_parents a exist_ok w)) !! q = Some n.
Proof.
  intros Hq. unfold mkdir_parents. run.
  destruct (fs w !! a) as [[|c]|] eqn:Ha; run; [by destruct exist_ok|done|].
  pose proof (make_dirs_keeps (parents a)
                {| fs := fs w; trace := trace w ++ [EvMkdir a] |} q n Hq) as Hk.
  destruct (make_dirs (parents a) _) as [[] w1|e w1]; cbn in *; [|done].
  destruct (decide (a = q)) as [->|Hne].
  - rewrite lookup_insert_eq.
    assert (Hd : fs (final (make_dirs (parents q)
                {| fs := fs w; trace := trace w ++ [EvMkdir q] |})) !! q = Some n)
      by by apply make_dirs_keeps.
    congruence.
  - by rewrite lookup_insert_ne.
Qed.

Lemma final_bind {A B} (c : M A) (f : A -> M B) (w : World) :
  final ((c ≫= f) w) =
    match c w with
    | Done a w1 => final (f a w1)
    | Raised _ w1 => w1
    end.
Proof. unfold mbind, M_bind. by destruct (c w). Qed.

(** X15. Preparing the directories never removes or changes an entry that
    lies outside the run directory, however the preparation ends (it can
    fail half way, when a file stands where a directory is needed); and when
    the run directory does not exist yet, no existing entry at all is
    removed or changed. *)
Theorem prepare_dirs_keeps_what_is_outside_the_run_directory
    (cfg : Cfg) (p : Proc) (d : Dirs) (w : World) (q : Path) (n : Node) :
  fs w !! q = Some n ->
  ~ within (output_dir d) q \/ path_exists (fs w) (output_dir d) = false ->
  fs (final (prepare_dirs cfg p d w)) !! q = Some n.
Proof.
  intros Hq Hout. unfold prepare_dirs.
  destruct (negb (train_resume cfg) && is_main_process p); [|done].
  rewrite final_bind. cbn [get_fs].
  rewrite final_bind.
  assert (Hfirst :
    fs (final ((if path_exists (fs w) (output_dir d)
                then rmtree (output_dir d);; mkdir_parents (output_dir d) false
                else mkdir_parents (output_dir d) true) w)) !! q = Some n).
  { destruct (path_exists (fs w) (output_dir d)) eqn:Hex.
    - destruct Hout as [Hout|Hout]; [|done].
      rewrite final_bind. unfold rmtree at 1. run.
      destruct (fs w !! output_dir d) as [[|c]|] eqn:Ho; run; [|done|done].
      apply mkdir_parents_keeps. cbn. by rewrite remove_tree_outside.
    - by apply mkdir_parents_keeps. }
  destruct (if path_exists (fs w) (output_dir d) then _ else _) as [[] w1|e w1];
    cbn in Hfirst; [|done].
  rewrite final_bind.
  pose proof (mkdir_parents_keeps (snapshot_dir d) true w1 q n Hfirst) as Hsnap.
  destruct (mkdir_parents (snapshot_dir d) true w1) as [[] w2|e w2];
    cbn in Hsnap; [|done].
  destruct (truthy (tune_tune_every cfg) && tune_knn_save_features cfg); [|done].
  by apply mkdir_parents_keeps.
Qed.

Lemma prepare_dirs_keeps_what_is_outside_the_run_directory_witness :
  fs Examples.old_world !! ["output"] = Some Dir
  /\ (~ within (output_dir (dirs_of Examples.run_dir)) ["output"]
      \/ path_exists (fs Examples.old_world) (output_dir (dirs_of Examples.run_dir)) = false)
  /\ fs (final (prepare_dirs Examples.cfg0 Examples.rank0 (dirs_of Examples.run_dir)
                  Examples.old_world)) !! ["output"] = Some Dir.
Proof.
  assert (H1 : fs Examples.old_world !! ["output"] = Some Dir) by (vm_compute; reflexivity).
  assert (H2 : ~ within (output_dir (dirs_of Examples.run_dir)) ["output"]
               \/ path_exists (fs Examples.old_world)
                    (output_dir (dirs_of Examples.run_dir)) = false).
  { left. intros H. apply prefix_length in H. cbn in H. lia. }
  split; [exact H1|]. split; [exact H2|].
  exact (prepare_dirs_keeps_what_is_outside_the_run_directory
           Examples.cfg0 Examples.rank0 (dirs_of Examples.run_dir)
           Examples.old_world ["output"] Dir H1 H2).
Defined.

(** ** The loop as a whole *)




(** ** The log file *)

Lemma log_epochs_ext (fs1 fs2 : FS) (q : Path) :
  fs1 !! q = fs2 !! q ->
  log_epochs fs1 q = log_epochs fs2 q /\ appendable fs1 q = appendable fs2 q.
Proof. intros H. unfold log_epochs, appendable. by rewrite H. Qed.

Lemma appended_log (fs0 : FS) (q : Path) (line : LogStats) :
  appendable fs0 q = true ->
  log_epochs (appended fs0 q line) q = log_epochs fs0 q ++ [log_epoch line]
  /\ appendable (appended fs0 q line) q = true.
Proof.
  unfold appendable, log_epochs, appended.
  destruct (fs0 !! q) as [[|[s|ls]]|] eqn:Hq; try done; intros _;
    rewrite lookup_insert_eq; [|done].
  by rewrite map_app.
Qed.

Lemma epoch_save_path_not_log (out : Path) (e : Z) :
  epoch_save_path (dirs_of out) e <> path_join out "log.txt".
Proof.
  change (path_join out "log.txt") with (out ++ ["log.txt"]).
  unfold epoch_save_path.
  change (snapshot_dir (dirs_of out)) with (out ++ ["snapshots"]).
  change ("epoch_" +:+ format_03 e +:+ ".pt")
    with (String "e" ("poch_" +:+ format_03 e +:+ ".pt")).
  unfold path_join, join1. rewrite bool_decide_eq_false_2 by done.
  cbn [is_absolute]. rewrite bool_decide_eq_false_2 by done.
  intros H. apply (f_equal length) in H. rewrite !length_app in H. cbn in H. lia.
Qed.

Lemma epoch_bookkeeping_log (cfg : Cfg) (p : Proc) (out : Path) (e : Z)
    (stats : TrainStats) (snap : Snapshot) (w : World) :
  is_main_process p = true ->
  appendable (fs w) (path_join out "log.txt") = true ->
  exists w',
    epoch_bookkeeping cfg p (dirs_of out) e stats snap w = Done tt w'
    /\ log_epochs (fs w') (path_join out "log.txt")
       = log_epochs (fs w) (path_join out "log.txt") ++ [e]
    /\ appendable (fs w') (path_join out "log.txt") = true.
Proof.
  intros Hmain Hok.
  unfold epoch_bookkeeping, write_log, append_line.
  unfold mbind at 1, M_bind at 1. rewrite save_snapshot_eq, Hmain.
  set (w1 := if true && _ then _ else w).
  assert (Hsame : fs w1 !! path_join out "log.txt" = fs w !! path_join out "log.txt").
  { unfold w1. destruct (true && _); [|done]. cbn [fs].
    rewrite lookup_insert_ne; [done|]. apply epoch_save_path_not_log. }
  destruct (log_epochs_ext _ _ _ Hsame) as [Hl Ha]. rewrite <- Hl, <- Ha in *.
  clearbody w1.
  destruct (appended_log (fs w1) (path_join out "log.txt")
              {| log_train := stats; log_epoch := e |} Hok) as [H1 H2].
  change (output_dir (dirs_of out)) with out.
  destruct (wandb_enable cfg), (distributed p); run; eexists;
    (split; [reflexivity|]); cbn [fs]; by split.
Qed.

Section Log.

Variable X : Collaborators.
Variable cfg : Cfg.
Variable p : Proc.
Variable out : Path.

Hypothesis Hmain : is_main_process p = true.
Hypothesis Hframe :
  forall es e t s fs0,
    (EarlyStoppingDINO_call X es e t s fs0).2 !! path_join out "log.txt"
    = fs0 !! path_join out "log.txt".

Lemma epoch_body_log (e : Z) (st : LoopState X) (w : World) :
  appendable (fs w) (path_join out "log.txt") = true ->
  exists st' w' new,
    epoch_body X cfg p (dirs_of out) e st w = Done (st', ls_stop st') w'
    /\ trace w' = trace w ++ new
    /\ trained_epochs new = [e]
    /\ log_epochs (fs w') (path_join out "log.txt")
       = log_epochs (fs w) (path_join out "log.txt") ++ (if ls_stop st' then [] else [e])
    /\ appendable (fs w') (path_join out "log.txt") = true.
Proof.
  intros Hok.
  destruct (epoch_body_total X cfg p (dirs_of out) e st w)
    as (st' & w' & new & Heq & Htr & Het & _ & _).
  exists st', w', new. split; [exact Heq|]. split; [exact Htr|]. split; [exact Het|].
  rewrite epoch_body_eq, epoch_train_eq in Heq. cbv zeta in Heq.
  rewrite Hmain in Heq.
  match type of Heq with
  | context [EarlyStoppingDINO_call X ?a ?b ?c ?s ?f] =>
      pose proof (Hframe a b c s f) as Hsame;
      set (called := EarlyStoppingDINO_call X a b c s f) in *
  end.
  destruct (log_epochs_ext _ _ _ Hsame) as [Hl Ha].
  cbn [ls_stop] in Heq.
  destruct (if early_stop X called.1 && tune_enable cfg then true else ls_stop st)
    eqn:Hstop; rewrite ?Hstop in Heq.
  - simplify_eq. cbn [ls_stop fs]. rewrite ?Hstop, app_nil_r.
    by rewrite Hl, Ha.
  - match type of Heq with
    | context [epoch_bookkeeping cfg p (dirs_of out) e ?stats ?snap ?w1] =>
        destruct (epoch_bookkeeping_log cfg p out e stats snap w1 Hmain)
          as (w2 & Hbk & Hlog & Hok2); [cbn [fs]; by rewrite Ha|];
        rewrite Hbk in Heq
    end.
    simplify_eq. cbn [ls_stop]. rewrite ?Hstop.
    cbn [fs] in Hlog. by rewrite Hlog, Hl.
Qed.

Lemma epochs_loop_log (epochs : list Z) (st : LoopState X) (w : World) :
  ls_stop st = false ->
  appendable (fs w) (path_join out "log.txt") = true ->
  exists st' w' new,
    epochs_loop X cfg p (dirs_of out) epochs st w = Done st' w'
    /\ trace w' = trace w ++ new
    /\ trained_epochs new `prefix_of` epochs
    /\ (ls_stop st' = true -> trained_epochs new <> [])
    /\ log_epochs (fs w') (path_join out "log.txt")
       = log_epochs (fs w) (path_join out "log.txt")
         ++ completed_epochs (ls_stop st') (trained_epochs new).
Proof.
  revert st w. induction epochs as [|e rest IH]; intros st w Hstop Hok.
  - exists st, w, []. run. rewrite Hstop. cbn. rewrite !app_nil_r.
    repeat split; done.
  - cbn [epochs_loop]. unfold mbind at 1, M_bind at 1.
    destruct (epoch_body_log e st w Hok)
      as (st1 & w1 & new1 & -> & Htr1 & Het1 & Hlog1 & Hok1).
    destruct (ls_stop st1) eqn:Hstop1.
    + exists st1, w1, new1. run. rewrite Hstop1, Het1. cbn.
      repeat split; [done| |done|done].
      by apply prefix_cons, prefix_nil.
    + destruct (IH st1 w1 Hstop1 Hok1) as (st2 & w2 & new2 & -> & Htr2 & Hpre & Hne & Hlog2).
      exists st2, w2, (new1 ++ new2).
      rewrite Htr2, Htr1, <- app_assoc, trained_epochs_app, Het1.
      repeat split; [by apply prefix_cons|done|].
      rewrite Hlog2, Hlog1, <- app_assoc. f_equal. cbn [app].
      unfold completed_epochs. destruct (ls_stop st2); [|done].
      specialize (Hne eq_refl).
      destruct (trained_epochs new2); done.
Qed.

End Log.

(** X17. On the coordinating process, with a controller that leaves
    [log.txt] alone, the loop appends to [log.txt] one line for every epoch
    that came to its end, in the order of training, after the lines that the
    file had: every trained epoch when the loop ran through, and every
    trained epoch but the last one when it was left by an early stop. *)
Theorem log_gets_one_line_per_completed_epoch
    (X : Collaborators) (cfg : Cfg) (p : Proc) (out : Path)
    (epochs_run : Z) (m : Model) (w : World) :
  is_main_process p = true ->
  (forall es e t s fs0,
     (EarlyStoppingDINO_call X es e t s fs0).2 !! path_join out "log.txt"
     = fs0 !! path_join out "log.txt") ->
  appendable (fs w) (path_join out "log.txt") = true ->
  exists st w' new,
    main_train X cfg p (dirs_of out) epochs_run m w = Done st w'
    /\ trace w' = trace w ++ new
    /\ trained_epochs new `prefix_of` range epochs_run (optim_epochs cfg)
    /\ log_epochs (fs w') (path_join out "log.txt")
       = log_epochs (fs w) (path_join out "log.txt")
         ++ completed_epochs (ls_stop st) (trained_epochs new).
Proof.
  intros Hmain Hframe Hok.
  unfold main_train. unfold mbind at 1, M_bind at 1.
  destruct (epochs_loop_log X cfg p out Hmain Hframe
              (range epochs_run (optim_epochs cfg))
              {| ls_model := m;
                 ls_early_stopping := EarlyStoppingDINO_init X cfg (snapshot_dir (dirs_of out));
                 ls_stop := false |} w eq_refl Hok)
    as (st & w1 & new & -> & Htr & Hpre & _ & Hlog).
  destruct (distributed p); run.
  - exists st, {| fs := fs w1; trace := trace w1 ++ [EvDestroyProcessGroup] |},
      (new ++ [EvDestroyProcessGroup]).
    cbn. rewrite Htr, <- app_assoc, trained_epochs_app. cbn. rewrite app_nil_r.
    auto.
  - exists st, w1, new. auto.
Qed.

Lemma stand_in_controller_leaves_the_log (stop_at : option Z) (out : Path) :
  forall es e t s fs0,
    (EarlyStoppingDINO_call (Examples.collaborators stop_at) es e t s fs0).2
      !! path_join out "log.txt"
    = fs0 !! path_join out "log.txt".
Proof.
  intros es e t s fs0. cbn. apply lookup_insert_ne.
  intros H. apply app_inj_tail in H as [_ H]. discriminate H.
Qed.

Lemma log_gets_one_line_per_completed_epoch_witness :
  is_main_process Examples.rank0 = true
  /\ appendable (fs Examples.old_world) (path_join Examples.run_dir "log.txt") = true
  /\ exists st w' new,
       main_train (Examples.collaborators (Some 2)) Examples.cfg0 Examples.rank0
         (dirs_of Examples.run_dir) 0 Examples.model0 Examples.old_world = Done st w'
       /\ trace w' = trace Examples.old_world ++ new
       /\ trained_epochs new `prefix_of` range 0 (optim_epochs Examples.cfg0)
       /\ log_epochs (fs w') (path_join Examples.run_dir "log.txt")
          = log_epochs (fs Examples.old_world) (path_join Examples.run_dir "log.txt")
            ++ completed_epochs (ls_stop st) (trained_epochs new).
Proof.
  split; [reflexivity|]. split; [vm_compute; reflexivity|].
  apply (log_gets_one_line_per_completed_epoch
           (Examples.collaborators (Some 2)) Examples.cfg0 Examples.rank0
           Examples.run_dir 0 Examples.model0 Examples.old_world).
  - reflexivity.
  - apply stand_in_controller_leaves_the_log.
  - vm_compute; reflexivity.
Defined.

End PatchExtra.
